(** * FollowUPS: the import follow-up pipeline

    A shallow embedding of the ingestion-and-classification pipeline of the
    dashboard:
    - [types.ts]: [ImportStatus], [ImportItem], [DashboardStats];
    - [services/importLogic]: the two override stores kept in localStorage,
      [calculateStatus] and the row builder inside [processExcelData];
    - [App]: the [stats] reducer and the four handlers
      [handleMarkShipped], [handleUnmarkShipped], [handleExclude],
      [handleRestore];
    - [components/DataTable]: [STATUS_PRIORITY] and the sort comparator of
      [processedItems].

    JavaScript numbers that hold day counts, priorities and counters are
    integers in the program and are modelled by [Z]; JavaScript objects used
    as dictionaries are modelled by [gmap string _]; a JavaScript string is
    modelled by the bytes of its UTF-8 encoding. *)

From Stdlib Require Import ZArith Lia Ascii String List.
From Stdlib Require Import DecimalString DecimalNat DecimalZ.
From Stdlib Require Import Sorted Permutation.
From stdpp Require Import base option list gmap strings fin_maps.

Local Open Scope string_scope.
Local Open Scope Z_scope.

(** ** types.ts *)

Inductive ImportStatus : Type :=
  | ATRASADO
  | CRITICO
  | ALERTA
  | PRODUCAO
  | EMBARCADO
  | NACIONAL.

#[global] Instance ImportStatus_eq_dec : EqDecision ImportStatus.
Proof. solve_decision. Defined.

(** The enum is a string enum: each member's runtime value is its name. *)
Definition ImportStatus_value (s : ImportStatus) : string :=
  match s with
  | ATRASADO => "ATRASADO"
  | CRITICO => "CRITICO"
  | ALERTA => "ALERTA"
  | PRODUCAO => "PRODUCAO"
  | EMBARCADO => "EMBARCADO"
  | NACIONAL => "NACIONAL"
  end.

(** *** Dates

    A JavaScript [Date] holds a time value in milliseconds since the epoch,
    or NaN ("Invalid Date"). *)

Inductive JsDate : Type :=
  | ValidDate (ms : Z)
  | InvalidDate.

#[global] Instance JsDate_eq_dec : EqDecision JsDate.
Proof. solve_decision. Defined.

Definition MS_PER_DAY : Z := 86400000.

(** The largest time value a [Date] can hold (ECMAScript TimeClip). *)
Definition MAX_TIME_VALUE : Z := 8640000000000000.

(** [new Date(t)] for an integral number [t]. *)
Definition Date_of_ms (t : Z) : JsDate :=
  if Z.abs t <=? MAX_TIME_VALUE then ValidDate t else InvalidDate.

(** date-fns [isValid]. *)
Definition isValid (d : JsDate) : bool :=
  match d with
  | ValidDate _ => true
  | InvalidDate => false
  end.

(** *** Cell values

    What [XLSX.utils.sheet_to_json] (with [cellDates]) puts under a column
    key of a row object; a missing key reads as [undefined]. Numeric cells
    are modelled by their integer value. *)

Inductive Cell : Type :=
  | CUndefined
  | CNull
  | CBool (b : bool)
  | CNumber (n : Z)
  | CString (s : string)
  | CDate (d : JsDate).

#[global] Instance Cell_eq_dec : EqDecision Cell.
Proof. solve_decision. Defined.

(** JavaScript truthiness (ToBoolean): [undefined], [null], [false], [0] and
    the empty string are falsy, every object (so every [Date]) is truthy. *)
Definition truthy (c : Cell) : bool :=
  match c with
  | CUndefined | CNull => false
  | CBool b => b
  | CNumber n => negb (n =? 0)
  | CString s => negb (String.eqb s "")
  | CDate _ => true
  end.

(** [a || b] *)
Definition js_or (a b : Cell) : Cell := if truthy a then a else b.

(** The functions of the host that the pipeline uses and that depend on the
    JavaScript engine and on where it runs: [new Date(s)] for a string [s],
    the string form of a [Date], and the local time zone adjustment
    [LocalTZA(t, isUTC)] of ECMAScript, the offset in milliseconds of local
    time from UTC, at the UTC time value [t] when [isUTC] holds and at the
    local time value [t] otherwise. *)
Record Host : Type := mkHost {
  Date_parse : string -> JsDate;
  Date_toString : JsDate -> string;
  LocalTZA : Z -> bool -> Z
}.

(** ECMAScript [LocalTime(t)] and [UTC(t)]. *)
Definition LocalTime (h : Host) (t : Z) : Z := t + LocalTZA h t true.

Definition UTC (h : Host) (t : Z) : Z := t - LocalTZA h t false.

(** date-fns [startOfDay]: [setHours(0, 0, 0, 0)] on a copy of the date,
    the local midnight of the local day of the date. *)
Definition startOfDay (h : Host) (d : JsDate) : JsDate :=
  match d with
  | ValidDate t =>
      let local := LocalTime h t in
      ValidDate (UTC h (local - local mod MS_PER_DAY))
  | InvalidDate => InvalidDate
  end.

(** date-fns [endOfDay]: [setHours(23, 59, 59, 999)] on a copy. *)
Definition endOfDay (h : Host) (d : JsDate) : JsDate :=
  match d with
  | ValidDate t =>
      let local := LocalTime h t in
      ValidDate (UTC h (local - local mod MS_PER_DAY + MS_PER_DAY - 1))
  | InvalidDate => InvalidDate
  end.

(** [Math.round(x / d)] for integers [x] and [d], [d] positive: the nearest
    integer, a half going up. *)
Definition round_div (x d : Z) : Z := (2 * x + d) / (2 * d).

(** date-fns [differenceInCalendarDays]: both dates are taken to the start
    of their local day, each start is moved by its own time zone offset,
    which gives the local time value of that midnight, and the difference is
    rounded to whole days. The result for an invalid date is NaN in date-fns;
    the row builder replaces invalid dates before it calls the function, so
    that case is given the value 0 here. *)
Definition differenceInCalendarDays (h : Host) (dateLeft dateRight : JsDate)
    : Z :=
  match startOfDay h dateLeft, startOfDay h dateRight with
  | ValidDate startOfDayLeft, ValidDate startOfDayRight =>
      let timestampLeft := LocalTime h startOfDayLeft in
      let timestampRight := LocalTime h startOfDayRight in
      round_div (timestampLeft - timestampRight) MS_PER_DAY
  | _, _ => 0
  end.

(** [`${idx}`] for an array index. *)
Definition string_of_index (idx : nat) : string :=
  NilEmpty.string_of_uint (Nat.to_uint idx).

(** [String(c)], also the conversion a template literal applies. *)
Definition js_String (h : Host) (c : Cell) : string :=
  match c with
  | CUndefined => "undefined"
  | CNull => "null"
  | CBool true => "true"
  | CBool false => "false"
  | CNumber n => NilZero.string_of_int (Z.to_int n)
  | CString s => s
  | CDate d => Date_toString h d
  end.

(** [String.prototype.trim] strips the white space and line terminators of
    ECMAScript from both ends. In UTF-8 these are the bytes 9 to 13 and 32,
    the two bytes of U+00A0, and the three bytes of U+1680, U+2000 to U+200A,
    U+2028, U+2029, U+202F, U+205F, U+3000 and U+FEFF. *)
Definition isWhiteSpace (c : ascii) : bool :=
  let n := nat_of_ascii c in
  (Nat.eqb n 32 || (Nat.leb 9 n && Nat.leb n 13))%bool.

Definition isWhiteSpace2 (c1 c2 : ascii) : bool :=
  (Nat.eqb (nat_of_ascii c1) 194 && Nat.eqb (nat_of_ascii c2) 160)%bool.

Definition isWhiteSpace3 (c1 c2 c3 : ascii) : bool :=
  let n1 := nat_of_ascii c1 in
  let n2 := nat_of_ascii c2 in
  let n3 := nat_of_ascii c3 in
  ((Nat.eqb n1 225 && Nat.eqb n2 154 && Nat.eqb n3 128)
   || (Nat.eqb n1 226 && Nat.eqb n2 128
       && ((Nat.leb 128 n3 && Nat.leb n3 138)
           || Nat.eqb n3 168 || Nat.eqb n3 169 || Nat.eqb n3 175))
   || (Nat.eqb n1 226 && Nat.eqb n2 129 && Nat.eqb n3 159)
   || (Nat.eqb n1 227 && Nat.eqb n2 128 && Nat.eqb n3 128)
   || (Nat.eqb n1 239 && Nat.eqb n2 187 && Nat.eqb n3 191))%bool.

Fixpoint trimStart (s : string) : string :=
  match s with
  | EmptyString => EmptyString
  | String c1 r1 =>
      if isWhiteSpace c1 then trimStart r1
      else
        match r1 with
        | EmptyString => s
        | String c2 r2 =>
            if isWhiteSpace2 c1 c2 then trimStart r2
            else
              match r2 with
              | EmptyString => s
              | String c3 r3 =>
                  if isWhiteSpace3 c1 c2 c3 then trimStart r3 else s
              end
        end
  end.

(** The same on the reversed string, whose characters have their bytes in
    reverse order. *)
Fixpoint trimStart_reversed (s : string) : string :=
  match s with
  | EmptyString => EmptyString
  | String c1 r1 =>
      if isWhiteSpace c1 then trimStart_reversed r1
      else
        match r1 with
        | EmptyString => s
        | String c2 r2 =>
            if isWhiteSpace2 c2 c1 then trimStart_reversed r2
            else
              match r2 with
              | EmptyString => s
              | String c3 r3 =>
                  if isWhiteSpace3 c3 c2 c1 then trimStart_reversed r3
                  else s
              end
        end
  end.

Definition trimEnd (s : string) : string :=
  String.rev (trimStart_reversed (String.rev s)).

Definition trim (s : string) : string := trimEnd (trimStart s).

(** A row object of the sheet. *)
Definition row_get (row : gmap string Cell) (key : string) : Cell :=
  default CUndefined (row !! key).

(** *** Records of the working collection *)

Record ImportItem : Type := mkImportItem {
  id : string;
  NUMERO_SC : Cell;
  NUMERO_PO : Cell;
  NUMERO_PC : Cell;
  NECESS_SC : option JsDate;
  NECESS_PC : JsDate;
  RAZAO_FORNEC : Cell;
  DESCR_PROD : Cell;
  VOLUME_PC : Cell;
  DIAS_PARA_NECESS : Z;
  status : ImportStatus;
  DATA_CHECK_EMBARQUE : option string;
  isExcluded : bool
}.

#[global] Instance ImportItem_eq_dec : EqDecision ImportItem.
Proof. solve_decision. Defined.

(** [{ ...item, status: s, DATA_CHECK_EMBARQUE: d }] *)
Definition with_shipping (s : ImportStatus) (d : option string)
    (item : ImportItem) : ImportItem :=
  {| id := id item;
     NUMERO_SC := NUMERO_SC item;
     NUMERO_PO := NUMERO_PO item;
     NUMERO_PC := NUMERO_PC item;
     NECESS_SC := NECESS_SC item;
     NECESS_PC := NECESS_PC item;
     RAZAO_FORNEC := RAZAO_FORNEC item;
     DESCR_PROD := DESCR_PROD item;
     VOLUME_PC := VOLUME_PC item;
     DIAS_PARA_NECESS := DIAS_PARA_NECESS item;
     status := s;
     DATA_CHECK_EMBARQUE := d;
     isExcluded := isExcluded item |}.

(** [{ ...item, isExcluded: b }] *)
Definition with_isExcluded (b : bool) (item : ImportItem) : ImportItem :=
  {| id := id item;
     NUMERO_SC := NUMERO_SC item;
     NUMERO_PO := NUMERO_PO item;
     NUMERO_PC := NUMERO_PC item;
     NECESS_SC := NECESS_SC item;
     NECESS_PC := NECESS_PC item;
     RAZAO_FORNEC := RAZAO_FORNEC item;
     DESCR_PROD := DESCR_PROD item;
     VOLUME_PC := VOLUME_PC item;
     DIAS_PARA_NECESS := DIAS_PARA_NECESS item;
     status := status item;
     DATA_CHECK_EMBARQUE := DATA_CHECK_EMBARQUE item;
     isExcluded := b |}.

Record DashboardStats : Type := mkDashboardStats {
  totalImported : Z;
  totalNational : Z;
  atrasado : Z;
  critico : Z;
  alerta : Z;
  producao : Z;
  embarcado : Z;
  followUpNeeded : Z
}.

(** ** services/importLogic: the override stores

    Each store is one localStorage item holding the JSON text of an object
    from record identity to [{ date }]. The item is modelled by the object
    it decodes to, [None] when the item is missing or its text does not
    parse: both load as the empty object. Keys are record identities. *)

Record StoredRecord : Type := mkStoredRecord { date : string }.

#[global] Instance StoredRecord_eq_dec : EqDecision StoredRecord.
Proof. solve_decision. Defined.

Record LocalStorage : Type := mkLocalStorage {
  importflow_shipped_items : option (gmap string StoredRecord);
  importflow_excluded_items : option (gmap string StoredRecord)
}.

Definition loadShippedMap (ls : LocalStorage) : gmap string StoredRecord :=
  default ∅ (importflow_shipped_items ls).

(** [now] is the reading of [new Date().toISOString()]. *)
Definition saveShippedItem (id0 : string) (now : string)
    (ls : LocalStorage) : LocalStorage :=
  let current := loadShippedMap ls in
  {| importflow_shipped_items := Some (<[id0 := mkStoredRecord now]> current);
     importflow_excluded_items := importflow_excluded_items ls |}.

Definition removeShippedItem (id0 : string) (ls : LocalStorage) : LocalStorage :=
  let current := loadShippedMap ls in
  match current !! id0 with
  | Some _ =>
      {| importflow_shipped_items := Some (delete id0 current);
         importflow_excluded_items := importflow_excluded_items ls |}
  | None => ls
  end.

Definition loadExcludedMap (ls : LocalStorage) : gmap string StoredRecord :=
  default ∅ (importflow_excluded_items ls).

Definition saveExcludedItem (id0 : string) (now : string)
    (ls : LocalStorage) : LocalStorage :=
  let current := loadExcludedMap ls in
  {| importflow_shipped_items := importflow_shipped_items ls;
     importflow_excluded_items := Some (<[id0 := mkStoredRecord now]> current) |}.

Definition removeExcludedItem (id0 : string) (ls : LocalStorage) : LocalStorage :=
  let current := loadExcludedMap ls in
  match current !! id0 with
  | Some _ =>
      {| importflow_shipped_items := importflow_shipped_items ls;
         importflow_excluded_items := Some (delete id0 current) |}
  | None => ls
  end.

(** ** services/importLogic: calculateStatus *)

Definition calculateStatus (daysDiff : Z) : ImportStatus :=
  if daysDiff <? 0 then ATRASADO
  else if daysDiff <? 30 then CRITICO
  else if daysDiff <=? 60 then ALERTA
  else PRODUCAO.

(** ** services/importLogic: processExcelData

    [processRow] is the callback that [processExcelData] maps over the rows
    of the first sheet. [today] is [startOfDay(new Date())], read once per
    import; [rowNow] is the [new Date()] that initialises [necessDate] when
    the row is processed. *)

Definition processRow (h : Host)
    (shippedMap excludedMap : gmap string StoredRecord)
    (today rowNow : JsDate)
    (row : gmap string Cell) (idx : nat) : option ImportItem :=
  let poRaw := row_get row "NUMERO_PO" in
  let isNational :=
    match poRaw with
    | CUndefined | CNull => true
    | _ => String.eqb (trim (js_String h poRaw)) ""
    end in
  if negb (truthy poRaw) && negb (truthy (row_get row "NUMERO_PC"))
     && negb (truthy (row_get row "DESCR_PROD"))
  then None
  else
    let po := if isNational then CString "" else poRaw in
    let pc := js_or (row_get row "NUMERO_PC") (CString "N/A") in
    let sc := row_get row "NUMERO_SC" in
    let produto := js_or (row_get row "DESCR_PROD") (CString "") in
    let uniqueSuffix := string_of_index idx in
    let id1 :=
      if isNational
      then "NAT-" ++ js_String h pc ++ "-" ++ uniqueSuffix
      else js_String h po ++ "-" ++ js_String h pc ++ "-" ++ uniqueSuffix in
    let rawDate := row_get row "NECESS_PC" in
    let necessDate0 :=
      match rawDate with
      | CDate d => d
      | CString s => Date_parse h s
      | CNumber n => Date_of_ms ((n - 25569) * 86400 * 1000)
      | _ => rowNow
      end in
    let necessDate := if isValid necessDate0 then necessDate0 else today in
    let rawDateSC := row_get row "NECESS_SC" in
    let necessSC : option JsDate :=
      if truthy rawDateSC then
        let necessSC0 :=
          match rawDateSC with
          | CDate d => Some d
          | CString s => Some (Date_parse h s)
          | CNumber n => Some (Date_of_ms ((n - 25569) * 86400 * 1000))
          | _ => None
          end in
        match necessSC0 with
        | Some d => if isValid d then Some d else None
        | None => None
        end
      else None in
    let daysDiff := differenceInCalendarDays h necessDate today in
    let status1 :=
      if isNational then NACIONAL
      else
        let isShipped := bool_decide (is_Some (shippedMap !! id1)) in
        if isShipped then EMBARCADO else calculateStatus daysDiff in
    Some {| id := id1;
            NUMERO_PO := po;
            NUMERO_PC := pc;
            NUMERO_SC := sc;
            NECESS_SC := necessSC;
            NECESS_PC := necessDate;
            RAZAO_FORNEC := js_or (row_get row "RAZAO_FORNEC") (CString "-");
            DESCR_PROD := js_or produto (CString "-");
            VOLUME_PC := js_or (row_get row "VOLUME_PC") (CString "-");
            DIAS_PARA_NECESS := daysDiff;
            status := status1;
            DATA_CHECK_EMBARQUE :=
              if isNational then None else date <$> shippedMap !! id1;
            isExcluded := bool_decide (is_Some (excludedMap !! id1)) |}.

(** The readings of the clock during one import: [clock_import] is the
    [new Date()] behind [today], [clock_row idx] the one taken when row
    [idx] is processed (milliseconds since the epoch). *)
Record ImportClock : Type := mkImportClock {
  clock_import : Z;
  clock_row : nat -> Z
}.

(** [processExcelData] from the decoded rows [jsonData] on: map with the
    row index, then drop the [null]s of the skipped rows. *)
Definition processExcelData (h : Host) (ls : LocalStorage) (clk : ImportClock)
    (jsonData : list (gmap string Cell)) : list ImportItem :=
  let shippedMap := loadShippedMap ls in
  let excludedMap := loadExcludedMap ls in
  let today := startOfDay h (ValidDate (clock_import clk)) in
  omap (fun item : option ImportItem => item)
    (imap (fun idx row =>
             processRow h shippedMap excludedMap today
               (ValidDate (clock_row clk idx)) row idx)
          jsonData).

(** ** App: state, aggregation and handlers *)

Record AppState : Type := mkAppState {
  items : list ImportItem;
  localStorage : LocalStorage
}.

Definition activeItems (its : list ImportItem) : list ImportItem :=
  List.filter (fun i => negb (isExcluded i)) its.

Definition excludedItems (its : list ImportItem) : list ImportItem :=
  List.filter (fun i => isExcluded i) its.

Definition initial : DashboardStats :=
  {| totalImported := 0; totalNational := 0; atrasado := 0; critico := 0;
     alerta := 0; producao := 0; embarcado := 0; followUpNeeded := 0 |}.

(** [acc.field++] when [item.status === s]. *)
Definition bump (item : ImportItem) (s : ImportStatus) (n : Z) : Z :=
  if decide (status item = s) then n + 1 else n.

(** The reducer of [stats]. *)
Definition stats_reducer (acc : DashboardStats) (item : ImportItem)
    : DashboardStats :=
  if decide (status item = NACIONAL) then
    {| totalImported := totalImported acc;
       totalNational := totalNational acc + 1;
       atrasado := atrasado acc; critico := critico acc;
       alerta := alerta acc; producao := producao acc;
       embarcado := embarcado acc; followUpNeeded := followUpNeeded acc |}
  else
    {| totalImported := totalImported acc + 1;
       totalNational := totalNational acc;
       atrasado := bump item ATRASADO (atrasado acc);
       critico := bump item CRITICO (critico acc);
       alerta := bump item ALERTA (alerta acc);
       producao := bump item PRODUCAO (producao acc);
       embarcado := bump item EMBARCADO (embarcado acc);
       followUpNeeded :=
         if bool_decide (status item = CRITICO)
            || bool_decide (status item = ALERTA)
         then followUpNeeded acc + 1 else followUpNeeded acc |}.

Definition stats (its : list ImportItem) : DashboardStats :=
  fold_left stats_reducer (activeItems its) initial.

(** The handlers. [nowStore] is the time stamp that the store helper reads,
    [nowItem i] the one read when the callback rewrites the record at
    position [i]. *)
Definition handleMarkShipped (id0 : string) (nowStore : string)
    (nowItem : nat -> string) (st : AppState) : AppState :=
  {| localStorage := saveShippedItem id0 nowStore (localStorage st);
     items :=
       imap (fun i item =>
               if bool_decide (id item = id0)
                  && negb (bool_decide (status item = NACIONAL))
               then with_shipping EMBARCADO (Some (nowItem i)) item
               else item)
            (items st) |}.

Definition handleUnmarkShipped (id0 : string) (st : AppState) : AppState :=
  {| localStorage := removeShippedItem id0 (localStorage st);
     items :=
       fmap (fun item =>
              if bool_decide (id item = id0)
                 && bool_decide (status item = EMBARCADO)
              then with_shipping (calculateStatus (DIAS_PARA_NECESS item))
                     None item
              else item)
           (items st) |}.

Definition handleExclude (id0 : string) (nowStore : string)
    (st : AppState) : AppState :=
  {| localStorage := saveExcludedItem id0 nowStore (localStorage st);
     items :=
       fmap (fun item =>
              if bool_decide (id item = id0)
              then with_isExcluded true item else item)
           (items st) |}.

Definition handleRestore (id0 : string) (st : AppState) : AppState :=
  {| localStorage := removeExcludedItem id0 (localStorage st);
     items :=
       fmap (fun item =>
              if bool_decide (id item = id0)
              then with_isExcluded false item else item)
           (items st) |}.

(** ** components/DataTable: sorting *)

Definition STATUS_PRIORITY : gmap string Z :=
  list_to_map
    [ (ImportStatus_value ATRASADO, 1);
      (ImportStatus_value CRITICO, 2);
      (ImportStatus_value ALERTA, 3);
      (ImportStatus_value PRODUCAO, 4);
      (ImportStatus_value EMBARCADO, 5);
      (ImportStatus_value NACIONAL, 6) ].

(** [STATUS_PRIORITY[key] || 99] *)
Definition priority_or_99 (key : string) : Z :=
  match STATUS_PRIORITY !! key with
  | Some p => if p =? 0 then 99 else p
  | None => 99
  end.

(** The comparator passed to [sort]. *)
Definition compareItems (a b : ImportItem) : Z :=
  let prioA := priority_or_99 (ImportStatus_value (status a)) in
  let prioB := priority_or_99 (ImportStatus_value (status b)) in
  if negb (prioA =? prioB) then prioA - prioB
  else DIAS_PARA_NECESS a - DIAS_PARA_NECESS b.

(** [Array.prototype.sort] with a comparator: a stable sort (ECMAScript
    2019), here by insertion from the right. An element goes in front of the
    elements that follow it in the input unless the comparator puts it
    strictly after them. *)
Fixpoint sort_insert {A : Type} (cmp : A -> A -> Z) (x : A) (l : list A)
    : list A :=
  match l with
  | [] => [x]
  | y :: l' => if cmp x y <=? 0 then x :: l else y :: sort_insert cmp x l'
  end.

Definition Array_sort {A : Type} (cmp : A -> A -> Z) (l : list A) : list A :=
  foldr (sort_insert cmp) [] l.

(** Step 2 of [processedItems]. *)
Definition sortByUrgency (filtered : list ImportItem) : list ImportItem :=
  Array_sort compareItems filtered.

(** The two sort keys of a record. *)
Definition sortKey (a : ImportItem) : Z * Z :=
  (priority_or_99 (ImportStatus_value (status a)), DIAS_PARA_NECESS a).

Definition key_le (k1 k2 : Z * Z) : Prop :=
  k1.1 < k2.1 \/ (k1.1 = k2.1 /\ k1.2 <= k2.2).

(** ** Counting records *)

(** The number of records of [l] that satisfy [p], as a counter value. *)
Definition count_where (p : ImportItem -> bool) (l : list ImportItem) : Z :=
  Z.of_nat (length (List.filter p l)).

Definition has_status (s : ImportStatus) (i : ImportItem) : bool :=
  bool_decide (status i = s).

Definition is_imported (i : ImportItem) : bool :=
  negb (has_status NACIONAL i).

(** ** Properties of records used in the statements *)

(** A record is classified when its status is what the row builder and the
    handlers leave in it: NACIONAL, EMBARCADO, or the status computed from
    the stored day count. *)
Definition classified (r : ImportItem) : Prop :=
  status r = NACIONAL \/ status r = EMBARCADO \/
  status r = calculateStatus (DIAS_PARA_NECESS r).

(** [r'] has the fields of [r], the [isExcluded] flag apart. *)
Definition same_but_isExcluded (r r' : ImportItem) : Prop :=
  id r' = id r /\ NUMERO_SC r' = NUMERO_SC r /\ NUMERO_PO r' = NUMERO_PO r /\
  NUMERO_PC r' = NUMERO_PC r /\ NECESS_SC r' = NECESS_SC r /\
  NECESS_PC r' = NECESS_PC r /\ RAZAO_FORNEC r' = RAZAO_FORNEC r /\
  DESCR_PROD r' = DESCR_PROD r /\ VOLUME_PC r' = VOLUME_PC r /\
  DIAS_PARA_NECESS r' = DIAS_PARA_NECESS r /\ status r' = status r /\
  DATA_CHECK_EMBARQUE r' = DATA_CHECK_EMBARQUE r.

(** The date that a cell of a date column denotes: the [Date] itself, the
    parse of a string, the conversion of a serial number; nothing for a cell
    of any other type, an absent one included. *)
Definition cell_date (h : Host) (c : Cell) : option JsDate :=
  match c with
  | CDate d => Some d
  | CString s => Some (Date_parse h s)
  | CNumber n => Some (Date_of_ms ((n - 25569) * 86400 * 1000))
  | _ => None
  end.

(** The rows that the builder skips. *)
Definition empty_row (row : gmap string Cell) : bool :=
  negb (truthy (row_get row "NUMERO_PO"))
  && negb (truthy (row_get row "NUMERO_PC"))
  && negb (truthy (row_get row "DESCR_PROD")).

(** Whether a string contains the separator of the identities. *)
Fixpoint has_dash (s : string) : bool :=
  match s with
  | EmptyString => false
  | String c r => Ascii.eqb c "-" || has_dash r
  end.

(** Whether the builder takes a row as national. *)
Definition rowIsNational (h : Host) (row : gmap string Cell) : bool :=
  let poRaw := row_get row "NUMERO_PO" in
  match poRaw with
  | CUndefined | CNull => true
  | _ => String.eqb (trim (js_String h poRaw)) ""
  end.

(** The part of a record that does not come from the override stores. *)
Definition descriptive (r : ImportItem) : ImportItem :=
  with_isExcluded false (with_shipping ATRASADO None r).

(** What every record of the collection satisfies: it is classified, it
    has a shipping date exactly when it is EMBARCADO, its purchase order is
    empty exactly when it is NACIONAL, its contract need-date is valid. *)
Definition wellformed (r : ImportItem) : Prop :=
  classified r /\
  (status r = EMBARCADO <-> is_Some (DATA_CHECK_EMBARQUE r)) /\
  (status r = NACIONAL <-> NUMERO_PO r = CString "") /\
  isValid (NECESS_PC r) = true.

(** The states of the application: the state after an import, and the
    states that the four handlers lead to. *)
Inductive reachable : AppState -> Prop :=
  | reachable_import h ls clk jsonData :
      reachable {| items := processExcelData h ls clk jsonData;
                   localStorage := ls |}
  | reachable_markShipped st id0 nowStore nowItem :
      reachable st -> reachable (handleMarkShipped id0 nowStore nowItem st)
  | reachable_unmarkShipped st id0 :
      reachable st -> reachable (handleUnmarkShipped id0 st)
  | reachable_exclude st id0 nowStore :
      reachable st -> reachable (handleExclude id0 nowStore st)
  | reachable_restore st id0 :
      reachable st -> reachable (handleRestore id0 st).

(** A host whose local time is at a fixed offset of [c] milliseconds from
    UTC, with no daylight saving. *)
Definition fixed_offset (h : Host) (c : Z) : Prop :=
  forall t isUTC, LocalTZA h t isUTC = c.

(** ** Sample data *)

Definition sampleItem (i : string) (s : ImportStatus) (d : Z) (ex : bool)
    : ImportItem :=
  {| id := i; NUMERO_SC := CUndefined; NUMERO_PO := CString "4500";
     NUMERO_PC := CString "77"; NECESS_SC := None; NECESS_PC := ValidDate 0;
     RAZAO_FORNEC := CString "-"; DESCR_PROD := CString "-";
     VOLUME_PC := CString "-"; DIAS_PARA_NECESS := d; status := s;
     DATA_CHECK_EMBARQUE := None; isExcluded := ex |}.

Definition sampleHost : Host :=
  {| Date_parse := fun _ => InvalidDate;
     Date_toString := fun _ => "Invalid Date";
     LocalTZA := fun _ _ => 0 |}.

(** A host three hours west of UTC, as America/Sao_Paulo is. *)
Definition hostSaoPaulo : Host :=
  {| Date_parse := fun _ => InvalidDate;
     Date_toString := fun _ => "Invalid Date";
     LocalTZA := fun _ _ => -10800000 |}.

Definition emptyStorage : LocalStorage :=
  {| importflow_shipped_items := None; importflow_excluded_items := None |}.

Definition sampleClock : ImportClock :=
  {| clock_import := 1000; clock_row := fun _ => 1000 |}.

(** ** App: views and sidebar counts *)

Inductive ViewState : Type :=
  | HOME
  | ALL
  | EXCLUIDOS
  | StatusView (s : ImportStatus).

Definition ViewState_value (v : ViewState) : string :=
  match v with
  | HOME => "HOME"
  | ALL => "ALL"
  | EXCLUIDOS => "EXCLUIDOS"
  | StatusView s => ImportStatus_value s
  end.

(** [displayedItems] *)
Definition displayedItems (view : ViewState) (its : list ImportItem)
    : list ImportItem :=
  match view with
  | HOME => []
  | EXCLUIDOS => excludedItems its
  | ALL => activeItems its
  | StatusView s =>
      List.filter (fun item => bool_decide (status item = s)) (activeItems its)
  end.

(** [sidebarCounts]: an object from menu keys to numbers. *)
Definition sidebarCounts (its : list ImportItem) : gmap string Z :=
  let st := stats its in
  <[ImportStatus_value ATRASADO := atrasado st]>
  (<[ImportStatus_value CRITICO := critico st]>
  (<[ImportStatus_value ALERTA := alerta st]>
  (<[ImportStatus_value PRODUCAO := producao st]>
  (<[ImportStatus_value EMBARCADO := embarcado st]>
  (<[ImportStatus_value NACIONAL := totalNational st]>
  (<["totalImported" := totalImported st]>
  (<["totalNational" := totalNational st]>
  (<["totalExcluded" := Z.of_nat (length (excludedItems its))]> ∅)))))))).

(** components/Sidebar, [renderMenuItem]: the variable [count] for the menu
    entry [itemId]; [None] stands for [null] and [undefined]. *)
Definition menuCount (counts : gmap string Z) (itemId : string) : option Z :=
  if String.eqb itemId "HOME" then None
  else if String.eqb itemId "ALL" then
    match counts !! "totalImported", counts !! "totalNational" with
    | Some a, Some b => Some (a + b)
    | _, _ => None
    end
  else counts !! itemId.

(** components/Sidebar, [renderMenuItem]: the number rendered beside the
    menu entry, there when [count] is neither [null] nor [undefined] and is
    positive; [None] when nothing is rendered. *)
Definition menuBadge (counts : gmap string Z) (itemId : string) : option Z :=
  match menuCount counts itemId with
  | Some count => if 0 <? count then Some count else None
  | None => None
  end.

(** components/Sidebar: the number rendered on the trash button, there when
    [counts.totalExcluded > 0]. *)
Definition trashBadge (counts : gmap string Z) : option Z :=
  match counts !! "totalExcluded" with
  | Some totalExcluded =>
      if 0 <? totalExcluded then Some totalExcluded else None
  | None => None
  end.

(** ** components/DataTable: filters, table statistics, colours *)

(** The functions of the host that the table uses: [toLowerCase] of a string
    and date-fns [parseISO]. *)
Record TableHost : Type := mkTableHost {
  toLowerCase : string -> string;
  parseISO : string -> JsDate
}.

(** The state of the search box and of the quick filters. *)
Record FilterState : Type := mkFilterState {
  searchTerm : string;
  supplierFilter : string;
  productFilter : string;
  startDate : string;
  endDate : string;
  statusFilter : string
}.

(** [clearFilters] *)
Definition clearFilters : FilterState :=
  {| searchTerm := ""; supplierFilter := ""; productFilter := "";
     startDate := ""; endDate := ""; statusFilter := "" |}.

(** [String.prototype.includes] *)
Fixpoint includes (s sub : string) : bool :=
  String.prefix sub s ||
  match s with
  | EmptyString => false
  | String _ r => includes r sub
  end.

(** date-fns [isBefore] and [isAfter]; comparisons with an invalid date
    are false. *)
Definition isBefore (d dateToCompare : JsDate) : bool :=
  match d, dateToCompare with
  | ValidDate x, ValidDate y => x <? y
  | _, _ => false
  end.

Definition isAfter (d dateToCompare : JsDate) : bool :=
  match d, dateToCompare with
  | ValidDate x, ValidDate y => y <? x
  | _, _ => false
  end.

(** Truthiness of a string. *)
Definition nonEmpty (s : string) : bool := negb (String.eqb s "").

(** [cell !== s] for a string [s]. *)
Definition differs_from_string (c : Cell) (s : string) : bool :=
  match c with
  | CString s' => negb (String.eqb s' s)
  | _ => true
  end.

(** The callback of step 1 of [processedItems]. *)
Definition passesFilters (th : TableHost) (h : Host) (f : FilterState)
    (item : ImportItem) : bool :=
  let term := toLowerCase th (searchTerm f) in
  let matchesSearch :=
    String.eqb (searchTerm f) ""
    || includes (toLowerCase th
                   (js_String h (js_or (NUMERO_SC item) (CString "")))) term
    || includes (toLowerCase th (js_String h (NUMERO_PO item))) term
    || includes (toLowerCase th (js_String h (NUMERO_PC item))) term
    || includes (toLowerCase th (js_String h (RAZAO_FORNEC item))) term
    || includes (toLowerCase th (js_String h (DESCR_PROD item))) term in
  if negb matchesSearch then false
  else if nonEmpty (supplierFilter f)
          && differs_from_string (RAZAO_FORNEC item) (supplierFilter f)
  then false
  else if nonEmpty (productFilter f)
          && negb (includes (toLowerCase th (js_String h (DESCR_PROD item)))
                            (toLowerCase th (productFilter f)))
  then false
  else if nonEmpty (statusFilter f)
          && negb (String.eqb (ImportStatus_value (status item))
                              (statusFilter f))
  then false
  else if nonEmpty (startDate f)
          && isBefore (NECESS_PC item)
                      (startOfDay h (parseISO th (startDate f)))
  then false
  else if nonEmpty (endDate f)
          && isAfter (NECESS_PC item)
                     (endOfDay h (parseISO th (endDate f)))
  then false
  else true.

(** [processedItems]: filter, then sort. *)
Definition processedItems (th : TableHost) (h : Host) (f : FilterState)
    (its : list ImportItem) : list ImportItem :=
  sortByUrgency (List.filter (passesFilters th h f) its).

Module TableStats.
Record t : Type := mk {
  total : Z;
  atrasado : Z;
  critico : Z;
  alerta : Z;
  producao : Z;
  embarcado : Z
}.
End TableStats.

(** The reducer of [tableStats]. *)
Definition tableStats_reducer (acc : TableStats.t) (item : ImportItem)
    : TableStats.t :=
  {| TableStats.total := TableStats.total acc + 1;
     TableStats.atrasado := bump item ATRASADO (TableStats.atrasado acc);
     TableStats.critico := bump item CRITICO (TableStats.critico acc);
     TableStats.alerta := bump item ALERTA (TableStats.alerta acc);
     TableStats.producao := bump item PRODUCAO (TableStats.producao acc);
     TableStats.embarcado := bump item EMBARCADO (TableStats.embarcado acc) |}.

Definition tableStats (processed : list ImportItem) : TableStats.t :=
  fold_left tableStats_reducer processed
    {| TableStats.total := 0; TableStats.atrasado := 0;
       TableStats.critico := 0; TableStats.alerta := 0;
       TableStats.producao := 0; TableStats.embarcado := 0 |}.

(** [Array.from(new Set(l))]: the elements of [l] in the order of their
    first occurrence. *)
Fixpoint Set_from {A : Type} `{EqDecision A} (seen l : list A) : list A :=
  match l with
  | [] => []
  | x :: r =>
      if decide (x ∈ seen) then Set_from seen r
      else x :: Set_from (x :: seen) r
  end.

(** [uniqueStatuses] *)
Definition uniqueStatuses (its : list ImportItem) : list ImportStatus :=
  Set_from [] (map status its).

(** [getRowClass] *)
Definition getRowClass (isExcludedView : bool) (s : ImportStatus) : string :=
  if isExcludedView then "bg-white opacity-60 hover:opacity-100"
  else
    match s with
    | ATRASADO => "bg-white hover:bg-red-50/20 border-l-4 border-l-red-500"
    | CRITICO => "bg-white hover:bg-orange-50/20 border-l-4 border-l-orange-500"
    | ALERTA => "bg-white hover:bg-yellow-50/20 border-l-4 border-l-yellow-400"
    | PRODUCAO => "bg-white hover:bg-blue-50/20 border-l-4 border-l-blue-400"
    | EMBARCADO =>
        "bg-white hover:bg-emerald-50/20 border-l-4 border-l-emerald-500"
    | NACIONAL => "bg-white hover:bg-green-50/20 border-l-4 border-l-green-600"
    end.

(** The [colorClass] field of [getTimelineProps]; the [width] field is a
    floating-point percentage and is not part of the model. *)
Definition getTimelineProps_colorClass (days : Z) : string :=
  if days <? 0 then "bg-red-500"
  else if days <? 30 then "bg-orange-500"
  else if days <? 60 then "bg-yellow-400"
  else "bg-blue-400".

(** ** Agreement of the collection with the stores *)

(** A state is consistent when each record carries the flags that the
    stores hold for its identity: it is excluded exactly when the excluded
    store has an entry, and, unless it is NACIONAL, it is EMBARCADO exactly
    when the shipped store has one. *)
Definition consistent (st : AppState) : Prop :=
  forall r, r ∈ items st ->
    (isExcluded r = true <->
     is_Some (loadExcludedMap (localStorage st) !! id r)) /\
    (status r <> NACIONAL ->
     (status r = EMBARCADO <->
      is_Some (loadShippedMap (localStorage st) !! id r))).

(** A state reached by an import of one imported and one national row,
    followed by a mark and an exclusion. *)
Definition sampleRows : list (gmap string Cell) :=
  [ {[ "NUMERO_PO" := CNumber 4500; "NUMERO_PC" := CString "77" ]};
    {[ "NUMERO_PC" := CString "77" ]} ].

Definition sampleState : AppState :=
  handleExclude "NAT-77-1" "t2"
    (handleMarkShipped "4500-77-0" "t0" (fun _ => "t1")
       {| items := processExcelData sampleHost emptyStorage sampleClock
                     sampleRows;
          localStorage := emptyStorage |}).

(** * Theorems *)

(** C1. For every integer [d], [calculateStatus d] is ATRASADO when [d < 0],
    CRITICO when [0 <= d < 30], ALERTA when [30 <= d <= 60] and PRODUCAO when
    [d > 60]; the boundary values 29, 30, 60 and 61 are classified CRITICO,
    ALERTA, ALERTA and PRODUCAO; EMBARCADO and NACIONAL are never produced,
    so each integer has exactly one of the four statuses. *)
Theorem calculateStatus_ranges (d : Z) :
  (d < 0 -> calculateStatus d = ATRASADO) /\
  (0 <= d < 30 -> calculateStatus d = CRITICO) /\
  (30 <= d <= 60 -> calculateStatus d = ALERTA) /\
  (d > 60 -> calculateStatus d = PRODUCAO) /\
  calculateStatus 29 = CRITICO /\
  calculateStatus 30 = ALERTA /\
  calculateStatus 60 = ALERTA /\
  calculateStatus 61 = PRODUCAO /\
  (d < 0 \/ 0 <= d < 30 \/ 30 <= d <= 60 \/ d > 60) /\
  calculateStatus d <> EMBARCADO /\ calculateStatus d <> NACIONAL.
Proof.
  unfold calculateStatus.
  repeat split; try reflexivity; try lia; intros;
    repeat case_match; try congruence; lia.
Qed.

Lemma calculateStatus_ranges_witness :
  calculateStatus (-5) = ATRASADO /\ calculateStatus 12 = CRITICO /\
  calculateStatus 45 = ALERTA /\ calculateStatus 100 = PRODUCAO.
Proof.
  split; [apply (calculateStatus_ranges (-5)); lia|].
  split; [apply (calculateStatus_ranges 12); lia|].
  split; [apply (calculateStatus_ranges 45); lia|].
  apply (calculateStatus_ranges 100); lia.
Defined.

(** ** The aggregator *)

Lemma count_where_cons p x l :
  count_where p (x :: l) = (if p x then 1 else 0) + count_where p l.
Proof.
  unfold count_where. simpl. destruct (p x); simpl; lia.
Qed.

Lemma count_where_nil p : count_where p [] = 0.
Proof. reflexivity. Qed.

(** What the fold adds to an arbitrary accumulator. *)
Lemma stats_fold (l : list ImportItem) (acc : DashboardStats) :
  fold_left stats_reducer l acc =
  {| totalImported := totalImported acc + count_where is_imported l;
     totalNational := totalNational acc + count_where (has_status NACIONAL) l;
     atrasado := atrasado acc
       + count_where (fun i => is_imported i && has_status ATRASADO i) l;
     critico := critico acc
       + count_where (fun i => is_imported i && has_status CRITICO i) l;
     alerta := alerta acc
       + count_where (fun i => is_imported i && has_status ALERTA i) l;
     producao := producao acc
       + count_where (fun i => is_imported i && has_status PRODUCAO i) l;
     embarcado := embarcado acc
       + count_where (fun i => is_imported i && has_status EMBARCADO i) l;
     followUpNeeded := followUpNeeded acc
       + count_where (fun i => is_imported i && has_status CRITICO i) l
       + count_where (fun i => is_imported i && has_status ALERTA i) l |}.
Proof.
  revert acc. induction l as [|x l IH]; intros acc.
  - simpl. rewrite !count_where_nil. destruct acc; simpl. f_equal; lia.
  - simpl fold_left. rewrite IH. rewrite !count_where_cons.
    unfold stats_reducer, bump, is_imported, has_status.
    destruct (status x); simpl; f_equal; lia.
Qed.

(** C6. The aggregator looks at the non-excluded records only; it counts the
    NACIONAL records apart, and among the others (the imported ones) one
    counter per status, with [followUpNeeded] the sum of the CRITICO and
    ALERTA counts. Five non-excluded records with statuses ATRASADO,
    ATRASADO, CRITICO, NACIONAL, NACIONAL give atrasado 2, critico 1,
    totalImported 3, totalNational 2 and followUpNeeded 1. *)
Theorem stats_counts_active_records (its : list ImportItem) :
  let act := List.filter (fun i => negb (isExcluded i)) its in
  totalImported (stats its) = count_where is_imported act /\
  totalNational (stats its) = count_where (has_status NACIONAL) act /\
  atrasado (stats its) =
    count_where (fun i => is_imported i && has_status ATRASADO i) act /\
  critico (stats its) =
    count_where (fun i => is_imported i && has_status CRITICO i) act /\
  alerta (stats its) =
    count_where (fun i => is_imported i && has_status ALERTA i) act /\
  producao (stats its) =
    count_where (fun i => is_imported i && has_status PRODUCAO i) act /\
  embarcado (stats its) =
    count_where (fun i => is_imported i && has_status EMBARCADO i) act /\
  followUpNeeded (stats its) = critico (stats its) + alerta (stats its) /\
  (map status its = [ATRASADO; ATRASADO; CRITICO; NACIONAL; NACIONAL] ->
   forallb (fun i => negb (isExcluded i)) its = true ->
   atrasado (stats its) = 2 /\ critico (stats its) = 1 /\
   totalImported (stats its) = 3 /\ totalNational (stats its) = 2 /\
   followUpNeeded (stats its) = 1).
Proof.
  intros act. unfold stats, activeItems. fold act. rewrite stats_fold. simpl.
  do 8 (split; [lia|]).
  intros Hst Hex.
  destruct its as [|a [|b [|c [|d [|e [|? ?]]]]]]; try discriminate Hst.
  injection Hst as Ha Hb Hc Hd He.
  subst act. simpl in Hex |- *.
  repeat (apply andb_prop in Hex; destruct Hex as [?Hx Hex]).
  repeat match goal with
         | Hx : negb (isExcluded ?x) = true |- _ => rewrite Hx; clear Hx
         end.
  rewrite !count_where_cons, ?count_where_nil.
  unfold is_imported, has_status. rewrite Ha, Hb, Hc, Hd, He.
  repeat split; reflexivity.
Qed.

Lemma stats_counts_active_records_witness :
  let its := [sampleItem "a-1-0" ATRASADO (-4) false;
              sampleItem "a-1-1" ATRASADO (-1) false;
              sampleItem "a-1-2" CRITICO 5 false;
              sampleItem "NAT-1-3" NACIONAL 0 false;
              sampleItem "NAT-1-4" NACIONAL 9 false] in
  atrasado (stats its) = 2 /\ critico (stats its) = 1 /\
  totalImported (stats its) = 3 /\ totalNational (stats its) = 2 /\
  followUpNeeded (stats its) = 1.
Proof.
  intros its.
  apply (stats_counts_active_records its); reflexivity.
Defined.

(** ** Sorting *)

Section InsertionSort.
Context {A K : Type} `{EqDecision K}.
Variable cmp : A -> A -> Z.
Variable key : A -> K.

Lemma sort_insert_Permutation x l : sort_insert cmp x l ≡ₚ x :: l.
Proof.
  induction l as [|y l IH]; simpl; [done|].
  destruct (cmp x y <=? 0); [done|].
  rewrite IH. apply Permutation_swap.
Qed.

Lemma Array_sort_Permutation l : Array_sort cmp l ≡ₚ l.
Proof.
  induction l as [|x l IH]; simpl; [done|].
  rewrite sort_insert_Permutation. by rewrite IH.
Qed.

(** Sortedness needs the comparator to be total. *)
Hypothesis cmp_total : forall x y, 0 < cmp x y -> cmp y x <= 0.

Lemma sort_insert_HdRel x z l :
  cmp z x <= 0 -> HdRel (fun a b => cmp a b <= 0) z l ->
  HdRel (fun a b => cmp a b <= 0) z (sort_insert cmp x l).
Proof.
  intros Hzx Hz. destruct l as [|y l]; simpl.
  - by constructor.
  - destruct (cmp x y <=? 0); constructor; [done|].
    by inversion Hz.
Qed.

Lemma sort_insert_Sorted x l :
  Sorted (fun a b => cmp a b <= 0) l ->
  Sorted (fun a b => cmp a b <= 0) (sort_insert cmp x l).
Proof.
  induction l as [|y l IH]; intros Hs; simpl.
  - repeat constructor.
  - destruct (Z.leb_spec (cmp x y) 0) as [Hle|Hgt].
    + constructor; [done|]. by constructor.
    + inversion Hs as [|? ? Hl Hhd]; subst.
      constructor; [by apply IH|].
      apply sort_insert_HdRel; [by apply cmp_total|done].
Qed.

Lemma Array_sort_Sorted l : Sorted (fun a b => cmp a b <= 0) (Array_sort cmp l).
Proof.
  induction l as [|x l IH]; simpl; [constructor|].
  by apply sort_insert_Sorted.
Qed.

(** Stability needs records with equal keys to compare as equal. *)
Hypothesis cmp_key : forall x y, key x = key y -> cmp x y <= 0.

Lemma sort_insert_filter_key k x l :
  filter (fun a => key a = k) (sort_insert cmp x l)
  = filter (fun a => key a = k) (x :: l).
Proof.
  induction l as [|y l IH]; simpl; [done|].
  destruct (Z.leb_spec (cmp x y) 0) as [Hle|Hgt]; [done|].
  destruct (decide (key x = k)) as [Hx|Hx].
  - assert (key y <> k) as Hy.
    { intros Hy. specialize (cmp_key x y). rewrite Hx, Hy in cmp_key.
      specialize (cmp_key eq_refl). lia. }
    rewrite (filter_cons_False _ y) by done.
    rewrite IH. rewrite !filter_cons_True by done.
    by rewrite (filter_cons_False _ y).
  - rewrite (filter_cons_False _ x (y :: l)) by done.
    destruct (decide (key y = k)) as [Hy|Hy].
    + rewrite !(filter_cons_True _ y) by done. rewrite IH.
      by rewrite filter_cons_False.
    + rewrite !(filter_cons_False _ y) by done. rewrite IH.
      by rewrite filter_cons_False.
Qed.

Lemma Array_sort_stable k l :
  filter (fun a => key a = k) (Array_sort cmp l)
  = filter (fun a => key a = k) l.
Proof.
  induction l as [|x l IH]; simpl; [done|].
  rewrite sort_insert_filter_key.
  destruct (decide (key x = k)).
  - rewrite !filter_cons_True by done. by rewrite IH.
  - rewrite !filter_cons_False by done. by rewrite IH.
Qed.
End InsertionSort.

Lemma priority_of_status (s : ImportStatus) :
  priority_or_99 (ImportStatus_value s) =
  match s with
  | ATRASADO => 1 | CRITICO => 2 | ALERTA => 3
  | PRODUCAO => 4 | EMBARCADO => 5 | NACIONAL => 6
  end.
Proof. destruct s; vm_compute; reflexivity. Qed.

Lemma priority_unmapped (k : string) :
  (forall s, ImportStatus_value s <> k) -> priority_or_99 k = 99.
Proof.
  intros Hk. unfold priority_or_99.
  assert (STATUS_PRIORITY !! k = None) as ->; [|done].
  unfold STATUS_PRIORITY. simpl.
  rewrite !lookup_insert_ne; [apply lookup_empty|..];
    first [exact (Hk ATRASADO) | exact (Hk CRITICO) | exact (Hk ALERTA)
          | exact (Hk PRODUCAO) | exact (Hk EMBARCADO) | exact (Hk NACIONAL)].
Qed.

Lemma compareItems_le (a b : ImportItem) :
  compareItems a b <= 0 <-> key_le (sortKey a) (sortKey b).
Proof.
  unfold compareItems, key_le, sortKey. simpl.
  destruct (Z.eqb_spec (priority_or_99 (ImportStatus_value (status a)))
                       (priority_or_99 (ImportStatus_value (status b))));
    simpl; lia.
Qed.

Lemma compareItems_total (a b : ImportItem) :
  0 < compareItems a b -> compareItems b a <= 0.
Proof.
  unfold compareItems.
  destruct (Z.eqb_spec (priority_or_99 (ImportStatus_value (status a)))
                       (priority_or_99 (ImportStatus_value (status b))));
  destruct (Z.eqb_spec (priority_or_99 (ImportStatus_value (status b)))
                       (priority_or_99 (ImportStatus_value (status a))));
    simpl; lia.
Qed.

Lemma compareItems_sortKey (a b : ImportItem) :
  sortKey a = sortKey b -> compareItems a b <= 0.
Proof.
  intros H. apply compareItems_le. unfold key_le. rewrite H. lia.
Qed.

#[local] Instance key_le_trans : Transitive key_le.
Proof. intros x y z. unfold key_le. lia. Qed.

Lemma sortByUrgency_StronglySorted (l : list ImportItem) :
  StronglySorted (fun a b => key_le (sortKey a) (sortKey b)) (sortByUrgency l).
Proof.
  apply Sorted_StronglySorted.
  - intros x y z. apply key_le_trans.
  - eapply Sorted_ind with (P := fun l' =>
      Sorted (fun a b => key_le (sortKey a) (sortKey b)) l');
      [constructor| |apply (Array_sort_Sorted compareItems compareItems_total l)].
    intros a l' _ IH Hhd. constructor; [done|].
    destruct Hhd; constructor. by apply compareItems_le.
Qed.

Lemma sortByUrgency_stable (l : list ImportItem) (k : Z * Z) :
  filter (fun a => sortKey a = k) (sortByUrgency l)
  = filter (fun a => sortKey a = k) l.
Proof.
  apply (Array_sort_stable compareItems sortKey compareItems_sortKey).
Qed.

(** ** The sort is determined by its contract

    Any rearrangement of a list that is sorted by the key pair and keeps the
    input order among records with equal key pairs is the list that
    [sortByUrgency] returns: the choice of the sorting algorithm cannot be
    observed. *)

Lemma key_le_antisym (k1 k2 : Z * Z) : key_le k1 k2 -> key_le k2 k1 -> k1 = k2.
Proof.
  destruct k1 as [a1 b1], k2 as [a2 b2]. unfold key_le. simpl.
  intros H1 H2. f_equal; lia.
Qed.

Lemma key_le_refl (k : Z * Z) : key_le k k.
Proof. unfold key_le. lia. Qed.

Lemma sorted_head_least (x y : ImportItem) (l : list ImportItem) :
  StronglySorted (fun a b => key_le (sortKey a) (sortKey b)) (x :: l) ->
  y ∈ x :: l -> key_le (sortKey x) (sortKey y).
Proof.
  intros Hs Hy. inversion Hs as [|? ? _ Hall]; subst.
  apply elem_of_cons in Hy as [->|Hy]; [apply key_le_refl|].
  by apply (proj1 (Forall_forall _ _) Hall).
Qed.

Lemma sorted_stable_unique (l1 l2 : list ImportItem) :
  StronglySorted (fun a b => key_le (sortKey a) (sortKey b)) l1 ->
  StronglySorted (fun a b => key_le (sortKey a) (sortKey b)) l2 ->
  (forall k, filter (fun a => sortKey a = k) l1
             = filter (fun a => sortKey a = k) l2) ->
  l1 = l2.
Proof.
  revert l2. induction l1 as [|x l1 IH]; intros [|y l2] H1 H2 Hf.
  - done.
  - specialize (Hf (sortKey y)).
    rewrite filter_nil, filter_cons_True in Hf by done. discriminate Hf.
  - specialize (Hf (sortKey x)).
    rewrite filter_nil, filter_cons_True in Hf by done. discriminate Hf.
  - assert (sortKey x = sortKey y) as Hk.
    { apply key_le_antisym.
      - apply (sorted_head_least x y l1 H1).
        apply (list_elem_of_filter (fun a => sortKey a = sortKey y)).
        rewrite Hf, filter_cons_True by done. apply list_elem_of_here.
      - apply (sorted_head_least y x l2 H2).
        apply (list_elem_of_filter (fun a => sortKey a = sortKey x)).
        rewrite <- Hf, filter_cons_True by done. apply list_elem_of_here. }
    assert (x = y) as <-.
    { specialize (Hf (sortKey x)).
      rewrite !filter_cons_True in Hf by done. by injection Hf. }
    f_equal. apply IH.
    + by inversion H1.
    + by inversion H2.
    + intros k. specialize (Hf k).
      destruct (decide (sortKey x = k)).
      * rewrite !filter_cons_True in Hf by done. by injection Hf.
      * by rewrite !filter_cons_False in Hf by done.
Qed.

Corollary sortByUrgency_unique (l l' : list ImportItem) :
  StronglySorted (fun a b => key_le (sortKey a) (sortKey b)) l' ->
  (forall k, filter (fun a => sortKey a = k) l'
             = filter (fun a => sortKey a = k) l) ->
  l' = sortByUrgency l.
Proof.
  intros Hs Hf. apply sorted_stable_unique; [done|..].
  - apply sortByUrgency_StronglySorted.
  - intros k. by rewrite Hf, sortByUrgency_stable.
Qed.

(** C7. The sort orders records by the priority of their status (ATRASADO 1,
    CRITICO 2, ALERTA 3, PRODUCAO 4, EMBARCADO 5, NACIONAL 6, any other key
    99), then by [DIAS_PARA_NECESS] ascending: the result is a rearrangement
    of the input in which every record is followed only by records whose key
    pair is not smaller; it is stable: the records that share a key pair
    stay in their input order. Records with (ALERTA, 45), (ATRASADO, -3),
    (CRITICO, 10), (PRODUCAO, 90) come out as ATRASADO, CRITICO, ALERTA,
    PRODUCAO. *)
Theorem sortByUrgency_priority_days_stable (l : list ImportItem) :
  (priority_or_99 (ImportStatus_value ATRASADO) = 1 /\
   priority_or_99 (ImportStatus_value CRITICO) = 2 /\
   priority_or_99 (ImportStatus_value ALERTA) = 3 /\
   priority_or_99 (ImportStatus_value PRODUCAO) = 4 /\
   priority_or_99 (ImportStatus_value EMBARCADO) = 5 /\
   priority_or_99 (ImportStatus_value NACIONAL) = 6) /\
  (forall k, (forall s, ImportStatus_value s <> k) -> priority_or_99 k = 99) /\
  sortByUrgency l ≡ₚ l /\
  StronglySorted (fun a b => key_le (sortKey a) (sortKey b)) (sortByUrgency l) /\
  (forall k, filter (fun a => sortKey a = k) (sortByUrgency l)
             = filter (fun a => sortKey a = k) l) /\
  (forall a b c d,
     l = [a; b; c; d] ->
     (status a, DIAS_PARA_NECESS a) = (ALERTA, 45) ->
     (status b, DIAS_PARA_NECESS b) = (ATRASADO, -3) ->
     (status c, DIAS_PARA_NECESS c) = (CRITICO, 10) ->
     (status d, DIAS_PARA_NECESS d) = (PRODUCAO, 90) ->
     sortByUrgency l = [b; c; a; d]).
Proof.
  split; [by rewrite !priority_of_status|].
  split; [apply priority_unmapped|].
  split; [apply Array_sort_Permutation|].
  split; [apply sortByUrgency_StronglySorted|].
  split; [intros k; apply sortByUrgency_stable|].
  intros a b c d -> [= Ha1 Ha2] [= Hb1 Hb2] [= Hc1 Hc2] [= Hd1 Hd2].
  destruct a, b, c, d; simpl in *; subst.
  vm_compute. reflexivity.
Qed.

Lemma sortByUrgency_priority_days_stable_witness :
  priority_or_99 "DESCONHECIDO" = 99 /\
  sortByUrgency [sampleItem "a" ALERTA 45 false;
                 sampleItem "b" ATRASADO (-3) false;
                 sampleItem "c" CRITICO 10 false;
                 sampleItem "d" PRODUCAO 90 false]
  = [sampleItem "b" ATRASADO (-3) false; sampleItem "c" CRITICO 10 false;
     sampleItem "a" ALERTA 45 false; sampleItem "d" PRODUCAO 90 false].
Proof.
  split.
  - apply (sortByUrgency_priority_days_stable []).
    intros []; discriminate.
  - eapply (sortByUrgency_priority_days_stable
              [sampleItem "a" ALERTA 45 false;
               sampleItem "b" ATRASADO (-3) false;
               sampleItem "c" CRITICO 10 false;
               sampleItem "d" PRODUCAO 90 false]); reflexivity.
Defined.

(** ** The handlers *)

Lemma with_shipping_same (r : ImportItem) :
  with_shipping (status r) (DATA_CHECK_EMBARQUE r) r = r.
Proof. by destruct r. Qed.

Lemma with_isExcluded_same (r : ImportItem) :
  with_isExcluded (isExcluded r) r = r.
Proof. by destruct r. Qed.

Lemma handleMarkShipped_lookup id0 nowStore nowItem st (i : nat) :
  items (handleMarkShipped id0 nowStore nowItem st) !! i =
  (fun item =>
     if bool_decide (id item = id0) && negb (bool_decide (status item = NACIONAL))
     then with_shipping EMBARCADO (Some (nowItem i)) item else item)
  <$> items st !! i.
Proof. unfold handleMarkShipped. simpl. by rewrite list_lookup_imap. Qed.

Lemma handleUnmarkShipped_lookup id0 st (i : nat) :
  items (handleUnmarkShipped id0 st) !! i =
  (fun item =>
     if bool_decide (id item = id0) && bool_decide (status item = EMBARCADO)
     then with_shipping (calculateStatus (DIAS_PARA_NECESS item)) None item
     else item)
  <$> items st !! i.
Proof. unfold handleUnmarkShipped. simpl. by rewrite list_lookup_fmap. Qed.

Lemma handleExclude_lookup id0 nowStore st (i : nat) :
  items (handleExclude id0 nowStore st) !! i =
  (fun item =>
     if bool_decide (id item = id0) then with_isExcluded true item else item)
  <$> items st !! i.
Proof. unfold handleExclude. simpl. by rewrite list_lookup_fmap. Qed.

Lemma handleRestore_lookup id0 st (i : nat) :
  items (handleRestore id0 st) !! i =
  (fun item =>
     if bool_decide (id item = id0) then with_isExcluded false item else item)
  <$> items st !! i.
Proof. unfold handleRestore. simpl. by rewrite list_lookup_fmap. Qed.

(** The guard of [handleMarkShipped] keeps every NACIONAL record as it is. *)
Lemma handleMarkShipped_national_record id0 nowStore nowItem st (i : nat) r :
  items st !! i = Some r -> status r = NACIONAL ->
  items (handleMarkShipped id0 nowStore nowItem st) !! i = Some r.
Proof.
  intros Hi Hs. rewrite handleMarkShipped_lookup, Hi. simpl.
  rewrite (bool_decide_eq_true_2 _ Hs). by rewrite andb_false_r.
Qed.

(** The store helper of [handleMarkShipped] runs before the guard and for
    every identity. *)
Lemma handleMarkShipped_store id0 nowStore nowItem st :
  loadShippedMap (localStorage (handleMarkShipped id0 nowStore nowItem st)) !! id0
  = Some (mkStoredRecord nowStore).
Proof.
  unfold handleMarkShipped, saveShippedItem, loadShippedMap. simpl.
  apply lookup_insert_eq.
Qed.

(** C2. Evaluation at a NACIONAL record built by an import of one row
    without purchase order: [handleMarkShipped] on its identity leaves the
    collection as it is, and writes an entry for the identity into the
    shipped store, which was empty. *)
Theorem handleMarkShipped_national_writes_store :
  let row : gmap string Cell := {[ "DESCR_PROD" := CString "PARAFUSO" ]} in
  let st := {| items := processExcelData sampleHost emptyStorage sampleClock [row];
               localStorage := emptyStorage |} in
  let st' := handleMarkShipped "NAT-N/A-0" "2026-01-01T00:00:00.000Z"
               (fun _ => "2026-01-01T00:00:00.001Z") st in
  (exists r, items st = [r] /\ id r = "NAT-N/A-0" /\ status r = NACIONAL) /\
  items st' = items st /\
  loadShippedMap (localStorage st) !! "NAT-N/A-0" = None /\
  loadShippedMap (localStorage st') !! "NAT-N/A-0"
    = Some (mkStoredRecord "2026-01-01T00:00:00.000Z") /\
  localStorage st' <> localStorage st.
Proof.
  intros row st st'.
  assert (items st = [ {| id := "NAT-N/A-0"; NUMERO_SC := CUndefined;
                          NUMERO_PO := CString ""; NUMERO_PC := CString "N/A";
                          NECESS_SC := None; NECESS_PC := ValidDate 1000;
                          RAZAO_FORNEC := CString "-";
                          DESCR_PROD := CString "PARAFUSO";
                          VOLUME_PC := CString "-"; DIAS_PARA_NECESS := 0;
                          status := NACIONAL; DATA_CHECK_EMBARQUE := None;
                          isExcluded := false |} ]) as Hits.
  { vm_compute. reflexivity. }
  split; [eexists; split; [exact Hits|split; reflexivity]|].
  split.
  { subst st'. unfold handleMarkShipped. simpl items at 1. rewrite Hits.
    reflexivity. }
  split; [reflexivity|].
  split; [apply handleMarkShipped_store|].
  intros Heq.
  assert (loadShippedMap (localStorage st') !! "NAT-N/A-0"
          = loadShippedMap (localStorage st) !! "NAT-N/A-0") as Hl
    by (by rewrite Heq).
  subst st'. rewrite handleMarkShipped_store in Hl. discriminate Hl.
Qed.

(** C3. For a record that is neither NACIONAL (so of imported origin) nor
    EMBARCADO, [handleMarkShipped] and then [handleUnmarkShipped] on its
    identity leave it with the status computed by [calculateStatus] from the
    day count stored in the record and with no shipping date, every other
    field as before; the status is the one the record had before when it was
    classified, as all records of the collection are. *)
Theorem markShipped_unmarkShipped_restores
    (st : AppState) (i : nat) (r : ImportItem)
    (nowStore : string) (nowItem : nat -> string) :
  items st !! i = Some r ->
  status r <> NACIONAL ->
  status r <> EMBARCADO ->
  let st' := handleUnmarkShipped (id r)
               (handleMarkShipped (id r) nowStore nowItem st) in
  items st' !! i
    = Some (with_shipping (calculateStatus (DIAS_PARA_NECESS r)) None r) /\
  (classified r ->
   exists r', items st' !! i = Some r' /\ status r' = status r /\
              DATA_CHECK_EMBARQUE r' = None /\
              DIAS_PARA_NECESS r' = DIAS_PARA_NECESS r).
Proof.
  intros Hi Hn He st'.
  assert (items st' !! i
    = Some (with_shipping (calculateStatus (DIAS_PARA_NECESS r)) None r)) as H.
  { subst st'. rewrite handleUnmarkShipped_lookup, handleMarkShipped_lookup, Hi.
    simpl. rewrite (bool_decide_eq_true_2 (id r = id r) eq_refl).
    rewrite (bool_decide_eq_false_2 _ Hn). simpl.
    by rewrite (bool_decide_eq_true_2 (id r = id r) eq_refl). }
  split; [exact H|].
  intros [Hc|[Hc|Hc]]; [done|done|].
  eexists. split; [exact H|]. simpl. by rewrite Hc.
Qed.

Lemma markShipped_unmarkShipped_restores_witness :
  let r := sampleItem "4500-77-0" CRITICO 12 false in
  let st := {| items := [r]; localStorage := emptyStorage |} in
  items (handleUnmarkShipped "4500-77-0"
           (handleMarkShipped "4500-77-0" "t0" (fun _ => "t1") st)) !! 0%nat
  = Some r.
Proof.
  intros r st.
  refine (proj1 (markShipped_unmarkShipped_restores st 0 r "t0" (fun _ => "t1")
                   _ _ _)).
  - reflexivity.
  - discriminate.
  - discriminate.
Defined.

(** The handlers keep every record classified. *)
Lemma handlers_keep_classified (st : AppState) id0 nowStore nowItem :
  Forall classified (items st) ->
  Forall classified (items (handleMarkShipped id0 nowStore nowItem st)) /\
  Forall classified (items (handleUnmarkShipped id0 st)) /\
  Forall classified (items (handleExclude id0 nowStore st)) /\
  Forall classified (items (handleRestore id0 st)).
Proof.
  intros Hall. repeat split; apply Forall_lookup; intros i r';
    [rewrite handleMarkShipped_lookup | rewrite handleUnmarkShipped_lookup
    | rewrite handleExclude_lookup | rewrite handleRestore_lookup];
    destruct (items st !! i) as [r|] eqn:Hi; simpl; try discriminate;
    pose proof (proj1 (Forall_lookup _ _) Hall i r Hi) as Hr;
    intros [= <-]; repeat case_match; try assumption;
    unfold classified in *; simpl; tauto.
Qed.

(** C8, as the claim states it, fails for a record that is already
    excluded: after [handleExclude] and [handleRestore] its flag is off. *)
Lemma exclude_restore_counterexample :
  ~ (forall (st : AppState) (i : nat) (r : ImportItem) (nowStore : string),
       items st !! i = Some r ->
       items (handleRestore (id r) (handleExclude (id r) nowStore st)) !! i
       = Some r).
Proof.
  intros H.
  specialize (H {| items := [sampleItem "4500-77-0" CRITICO 12 true];
                   localStorage := emptyStorage |}
                0%nat (sampleItem "4500-77-0" CRITICO 12 true) "t0" eq_refl).
  vm_compute in H. discriminate H.
Qed.

(** C8, amended. For a record at any position of the collection,
    [handleExclude] on its identity sets its [isExcluded] flag and changes no
    other field; [handleExclude] followed by [handleRestore] leaves the
    record with the flag off and every other field as before, so it gives
    back the record as it was when the record was not excluded. *)
Theorem exclude_changes_flag_only_and_restore_undoes
    (st : AppState) (i : nat) (r : ImportItem) (nowStore : string) :
  items st !! i = Some r ->
  (exists r', items (handleExclude (id r) nowStore st) !! i = Some r' /\
              isExcluded r' = true /\ same_but_isExcluded r r') /\
  (exists r'', items (handleRestore (id r)
                      (handleExclude (id r) nowStore st)) !! i = Some r'' /\
               isExcluded r'' = false /\ same_but_isExcluded r r'') /\
  (isExcluded r = false ->
   items (handleRestore (id r) (handleExclude (id r) nowStore st)) !! i
   = Some r).
Proof.
  intros Hi. split; [|split].
  - exists (with_isExcluded true r).
    rewrite handleExclude_lookup, Hi. simpl.
    rewrite (bool_decide_eq_true_2 (id r = id r) eq_refl).
    repeat split.
  - exists (with_isExcluded false r).
    rewrite handleRestore_lookup, handleExclude_lookup, Hi. simpl.
    rewrite (bool_decide_eq_true_2 (id r = id r) eq_refl). simpl.
    rewrite (bool_decide_eq_true_2 (id r = id r) eq_refl).
    repeat split.
  - intros Hex.
    rewrite handleRestore_lookup, handleExclude_lookup, Hi. simpl.
    rewrite (bool_decide_eq_true_2 (id r = id r) eq_refl). simpl.
    rewrite (bool_decide_eq_true_2 (id r = id r) eq_refl).
    rewrite <- (with_isExcluded_same r) at 2. rewrite Hex. reflexivity.
Qed.

Lemma exclude_changes_flag_only_and_restore_undoes_witness :
  let r := sampleItem "4500-77-0" EMBARCADO 12 false in
  let st := {| items := [sampleItem "NAT-1-0" NACIONAL 0 false; r];
               localStorage := emptyStorage |} in
  items (handleRestore "4500-77-0" (handleExclude "4500-77-0" "t0" st)) !! 1%nat
  = Some r.
Proof.
  intros r st.
  refine (proj2 (proj2
            (exclude_changes_flag_only_and_restore_undoes st 1 r "t0" _)) _);
    reflexivity.
Defined.

(** ** Strings that end with a row ordinal *)

Lemma append_cons (c : ascii) (a b : string) :
  String c a ++ b = String c (a ++ b).
Proof. reflexivity. Qed.

Lemma append_nil_l (a : string) : "" ++ a = a.
Proof. reflexivity. Qed.

Lemma append_assoc (a b c : string) : (a ++ b) ++ c = a ++ b ++ c.
Proof.
  induction a as [|x a IH]; [done|].
  by rewrite !append_cons, IH.
Qed.

Lemma has_dash_append (p d : string) :
  has_dash (p ++ d) = has_dash p || has_dash d.
Proof.
  induction p as [|c p IH]; [done|].
  rewrite append_cons. simpl. rewrite IH. by rewrite orb_assoc.
Qed.

Lemma string_of_uint_no_dash (d : Decimal.uint) :
  has_dash (NilEmpty.string_of_uint d) = false.
Proof. induction d; simpl; done. Qed.

Lemma string_of_index_no_dash (idx : nat) :
  has_dash (string_of_index idx) = false.
Proof. apply string_of_uint_no_dash. Qed.

Lemma string_of_index_inj (i j : nat) :
  string_of_index i = string_of_index j -> i = j.
Proof.
  unfold string_of_index. intros H.
  assert (Some (Nat.to_uint i) = Some (Nat.to_uint j)) as [= Hu].
  { rewrite <- !NilEmpty.usu. by rewrite H. }
  rewrite <- (DecimalNat.Unsigned.of_to i), <- (DecimalNat.Unsigned.of_to j).
  by rewrite Hu.
Qed.

(** Two strings [p ++ "-" ++ d] with no separator inside [d] agree on [d]
    when they are equal: [d] is what follows the last separator. *)
Lemma dash_suffix_inj (p1 p2 d1 d2 : string) :
  has_dash d1 = false -> has_dash d2 = false ->
  p1 ++ "-" ++ d1 = p2 ++ "-" ++ d2 -> d1 = d2.
Proof.
  intros H1 H2. revert p2.
  induction p1 as [|c p1 IH]; intros [|c' p2];
    rewrite ?append_cons, ?append_nil_l; intros H.
  - by injection H.
  - injection H as _ ->. rewrite has_dash_append in H1.
    simpl in H1. by rewrite orb_true_r in H1.
  - injection H as _ <-. rewrite has_dash_append in H2.
    simpl in H2. by rewrite orb_true_r in H2.
  - injection H as _ H. by eapply IH.
Qed.

Lemma ordinal_suffix_inj (p1 p2 : string) (i j : nat) :
  p1 ++ "-" ++ string_of_index i = p2 ++ "-" ++ string_of_index j -> i = j.
Proof.
  intros H. apply string_of_index_inj.
  eapply dash_suffix_inj; eauto using string_of_index_no_dash.
Qed.

(** ** The row builder *)

Ltac processRow_inv H :=
  unfold processRow in H; fold_empty_row H;
  match type of H with
  | (if ?c then None else _) = Some _ =>
      destruct c eqn:?; [discriminate H|]; injection H as <-
  end
with fold_empty_row H :=
  change (negb (truthy (row_get ?row "NUMERO_PO"))
          && negb (truthy (row_get ?row "NUMERO_PC"))
          && negb (truthy (row_get ?row "DESCR_PROD")))
    with (empty_row row) in H.

Lemma processRow_emits h ship excl today rowNow row idx :
  processRow h ship excl today rowNow row idx = None <-> empty_row row = true.
Proof.
  unfold processRow.
  change (negb (truthy (row_get row "NUMERO_PO"))
          && negb (truthy (row_get row "NUMERO_PC"))
          && negb (truthy (row_get row "DESCR_PROD")))
    with (empty_row row).
  destruct (empty_row row); split; intros H; done.
Qed.

Lemma processRow_id h ship excl today rowNow row idx item :
  processRow h ship excl today rowNow row idx = Some item ->
  exists p, id item = p ++ "-" ++ string_of_index idx.
Proof.
  intros H. processRow_inv H. simpl.
  case_match.
  - eexists. rewrite <- append_assoc. reflexivity.
  - eexists. rewrite <- (append_assoc _ "-" (js_String _ _ ++ _)).
    rewrite <- (append_assoc _ (js_String _ _)). reflexivity.
Qed.

Lemma processRow_isExcluded h ship excl today rowNow row idx item :
  processRow h ship excl today rowNow row idx = Some item ->
  isExcluded item = bool_decide (is_Some (excl !! id item)).
Proof. intros H. processRow_inv H. reflexivity. Qed.

Lemma processRow_classified h ship excl today rowNow row idx item :
  processRow h ship excl today rowNow row idx = Some item -> classified item.
Proof.
  intros H. processRow_inv H. unfold classified. simpl.
  repeat case_match; tauto.
Qed.

Lemma elem_of_processExcelData h ls clk rows item :
  item ∈ processExcelData h ls clk rows <->
  exists idx row,
    rows !! idx = Some row /\
    processRow h (loadShippedMap ls) (loadExcludedMap ls)
      (startOfDay h (ValidDate (clock_import clk)))
      (ValidDate (clock_row clk idx)) row idx = Some item.
Proof.
  unfold processExcelData. rewrite list_elem_of_omap. split.
  - intros (o & Ho & ->). apply elem_of_lookup_imap in Ho.
    destruct Ho as (i & row & Heq & Hi). eauto.
  - intros (i & row & Hi & Hp). exists (Some item). split; [|reflexivity].
    rewrite <- Hp.
    exact (elem_of_lookup_imap_2
             (fun idx row =>
                processRow h (loadShippedMap ls) (loadExcludedMap ls)
                  (startOfDay h (ValidDate (clock_import clk)))
                  (ValidDate (clock_row clk idx)) row idx)
             rows row i Hi).
Qed.

Lemma processExcelData_classified h ls clk rows :
  Forall classified (processExcelData h ls clk rows).
Proof.
  apply Forall_forall. intros item Hin.
  apply elem_of_processExcelData in Hin as (idx & row & _ & Hp).
  by eapply processRow_classified.
Qed.

(** Identities built from a row ordinal: when the record built at position
    [i] carries the ordinal [k + i] as the last segment of its identity, the
    identities of the records that are kept are pairwise distinct. *)
Lemma NoDup_ids_by_ordinal
    (f : nat -> gmap string Cell -> option ImportItem) (k : nat)
    (rows : list (gmap string Cell)) :
  (forall i row item, f i row = Some item ->
     exists p, id item = p ++ "-" ++ string_of_index (k + i)) ->
  NoDup (id <$> omap (fun o : option ImportItem => o) (imap f rows)) /\
  Forall (fun x => exists p j, id x = p ++ "-" ++ string_of_index (k + j))
         (omap (fun o : option ImportItem => o) (imap f rows)).
Proof.
  revert f k. induction rows as [|row rows IH]; intros f k Hf.
  - split; constructor.
  - rewrite imap_cons.
    destruct (IH (f ∘ S) (S k)) as [Hnd Hall].
    { intros i r item Hi. destruct (Hf (S i) r item Hi) as [p Hp].
      exists p. rewrite Hp. by rewrite Nat.add_succ_r. }
    assert (Forall (fun x => exists p j,
                      id x = p ++ "-" ++ string_of_index (k + j))
                   (omap (fun o : option ImportItem => o) (imap (f ∘ S) rows)))
      as Hall'.
    { eapply Forall_impl; [exact Hall|]. intros x (p & j & Hx).
      exists p, (S j). rewrite Hx. by rewrite Nat.add_succ_r. }
    cbn [omap list_omap]. destruct (f 0%nat row) as [item|] eqn:Hrow.
    + destruct (Hf 0%nat row item Hrow) as [p Hp]. split.
      * rewrite fmap_cons. apply NoDup_cons. split; [|exact Hnd].
        intros Hin. apply list_elem_of_fmap in Hin as (x & Hx & Hin).
        pose proof (proj1 (Forall_forall _ _) Hall x Hin) as (q & j & Hq).
        rewrite Hp, Hq in Hx. apply ordinal_suffix_inj in Hx. lia.
      * constructor; [|exact Hall']. by exists p, 0%nat.
    + by split.
Qed.

(** C9. Within one import the identities of the emitted records are pairwise
    distinct, whatever the purchase-order and purchase-contract values of
    the rows and whether the rows are national or imported: every identity
    ends with the separator and the zero-based ordinal of its row, and the
    ordinals differ. *)
Theorem processExcelData_ids_distinct
    (h : Host) (ls : LocalStorage) (clk : ImportClock)
    (jsonData : list (gmap string Cell)) :
  let out := processExcelData h ls clk jsonData in
  NoDup (id <$> out) /\
  (forall (i j : nat) a b,
     out !! i = Some a -> out !! j = Some b -> id a = id b -> i = j) /\
  (forall item, item ∈ out ->
     exists idx row p,
       jsonData !! idx = Some row /\
       id item = p ++ "-" ++ string_of_index idx).
Proof.
  intros out.
  assert (NoDup (id <$> out)) as Hnd.
  { subst out. unfold processExcelData.
    refine (proj1 (NoDup_ids_by_ordinal _ 0 jsonData _)).
    intros i row item Hi. simpl. eapply processRow_id. exact Hi. }
  split; [exact Hnd|]. split.
  - intros i j a b Hi Hj Hab.
    eapply (NoDup_lookup (id <$> out) i j (id a)); [exact Hnd|..].
    + by rewrite list_lookup_fmap, Hi.
    + rewrite list_lookup_fmap, Hj. simpl. by rewrite Hab.
  - intros item Hin. subst out.
    apply elem_of_processExcelData in Hin as (idx & row & Hrow & Hp).
    apply processRow_id in Hp as [p Hp]. eauto.
Qed.

Lemma processExcelData_ids_distinct_witness :
  let row1 : gmap string Cell :=
    {[ "NUMERO_PO" := CNumber 4500; "NUMERO_PC" := CString "77" ]} in
  let nat1 : gmap string Cell := {[ "NUMERO_PC" := CString "77" ]} in
  id <$> processExcelData sampleHost emptyStorage sampleClock
           [row1; row1; nat1; nat1]
  = ["4500-77-0"; "4500-77-1"; "NAT-77-2"; "NAT-77-3"] /\
  forall i j a b,
    processExcelData sampleHost emptyStorage sampleClock
      [row1; row1; nat1; nat1] !! i = Some a ->
    processExcelData sampleHost emptyStorage sampleClock
      [row1; row1; nat1; nat1] !! j = Some b ->
    id a = id b -> i = j.
Proof.
  intros row1 nat1. split; [vm_compute; reflexivity|].
  apply (processExcelData_ids_distinct sampleHost emptyStorage sampleClock
           [row1; row1; nat1; nat1]).
Defined.

(** C10. When no record of the collection has identity [id0],
    [handleExclude id0] leaves the collection as it is and still stores an
    entry for [id0] in the excluded store; every record to which a later
    import gives the identity [id0] is built with [isExcluded] set. *)
Theorem handleExclude_unknown_id_persists
    (st : AppState) (id0 : string) (nowStore : string) :
  (forall r, r ∈ items st -> id r <> id0) ->
  let st' := handleExclude id0 nowStore st in
  items st' = items st /\
  loadExcludedMap (localStorage st') !! id0 = Some (mkStoredRecord nowStore) /\
  (forall h clk jsonData item,
     item ∈ processExcelData h (localStorage st') clk jsonData ->
     id item = id0 -> isExcluded item = true).
Proof.
  intros Hno st'. split; [|split].
  - apply list_eq. intros i. subst st'. rewrite handleExclude_lookup.
    destruct (items st !! i) as [r|] eqn:Hi; [|done]. simpl.
    rewrite bool_decide_eq_false_2; [done|].
    apply Hno. by eapply list_elem_of_lookup_2.
  - subst st'. unfold handleExclude, saveExcludedItem, loadExcludedMap. simpl.
    apply lookup_insert_eq.
  - intros h clk jsonData item Hin Hid.
    apply elem_of_processExcelData in Hin as (idx & row & _ & Hp).
    apply processRow_isExcluded in Hp. rewrite Hp, Hid.
    apply bool_decide_eq_true_2.
    subst st'. unfold handleExclude, saveExcludedItem, loadExcludedMap. simpl.
    rewrite lookup_insert_eq. by eexists.
Qed.

Lemma handleExclude_unknown_id_persists_witness :
  let st := {| items := [sampleItem "4500-77-0" CRITICO 12 false];
               localStorage := emptyStorage |} in
  let st' := handleExclude "4500-77-1" "t0" st in
  let row1 : gmap string Cell :=
    {[ "NUMERO_PO" := CNumber 4500; "NUMERO_PC" := CString "77" ]} in
  let out := processExcelData sampleHost (localStorage st') sampleClock
               [row1; row1] in
  items st' = items st /\
  (forall item, item ∈ out -> id item = "4500-77-1" -> isExcluded item = true) /\
  (fun item => (id item, isExcluded item)) <$> out
  = [("4500-77-0", false); ("4500-77-1", true)].
Proof.
  intros st st' row1 out.
  assert (forall r, r ∈ items st -> id r <> "4500-77-1") as Hno.
  { intros r Hr. apply list_elem_of_singleton in Hr. subst r. discriminate. }
  split; [|split].
  - apply (handleExclude_unknown_id_persists st "4500-77-1" "t0" Hno).
  - intros item.
    apply (handleExclude_unknown_id_persists st "4500-77-1" "t0" Hno).
  - vm_compute. reflexivity.
Defined.

(** ** Dates and placeholders of the built record *)

(** Local days at a fixed offset. *)
Lemma startOfDay_fixed (h : Host) (c t : Z) :
  fixed_offset h c ->
  startOfDay h (ValidDate t)
  = ValidDate ((t + c) / MS_PER_DAY * MS_PER_DAY - c).
Proof.
  intros Hc. unfold startOfDay, LocalTime, UTC. rewrite !Hc. f_equal.
  unfold MS_PER_DAY.
  pose proof (Z.div_mod (t + c) 86400000 ltac:(lia)). lia.
Qed.

Lemma endOfDay_fixed (h : Host) (c t : Z) :
  fixed_offset h c ->
  endOfDay h (ValidDate t)
  = ValidDate ((t + c) / MS_PER_DAY * MS_PER_DAY + MS_PER_DAY - 1 - c).
Proof.
  intros Hc. unfold endOfDay, LocalTime, UTC. rewrite !Hc. f_equal.
  unfold MS_PER_DAY.
  pose proof (Z.div_mod (t + c) 86400000 ltac:(lia)). lia.
Qed.

Lemma differenceInCalendarDays_fixed (h : Host) (c l r : Z) :
  fixed_offset h c ->
  differenceInCalendarDays h (ValidDate l) (ValidDate r)
  = (l + c) / MS_PER_DAY - (r + c) / MS_PER_DAY.
Proof.
  intros Hc. unfold differenceInCalendarDays.
  rewrite !(startOfDay_fixed h c) by done.
  unfold LocalTime, round_div. rewrite !Hc. unfold MS_PER_DAY.
  replace (2 * ((l + c) / 86400000 * 86400000 - c + c
                - ((r + c) / 86400000 * 86400000 - c + c)) + 86400000)
    with (((l + c) / 86400000 - (r + c) / 86400000) * (2 * 86400000)
          + 86400000) by lia.
  rewrite Z.div_add_l by lia.
  rewrite (Z.div_small 86400000 (2 * 86400000)) by lia. lia.
Qed.

Lemma differenceInCalendarDays_today_fixed (h : Host) (c l r : Z) :
  fixed_offset h c ->
  differenceInCalendarDays h (ValidDate l) (startOfDay h (ValidDate r))
  = (l + c) / MS_PER_DAY - (r + c) / MS_PER_DAY.
Proof.
  intros Hc. rewrite (startOfDay_fixed h c) by done.
  rewrite (differenceInCalendarDays_fixed h c) by done. f_equal.
  replace ((r + c) / MS_PER_DAY * MS_PER_DAY - c + c)
    with ((r + c) / MS_PER_DAY * MS_PER_DAY) by lia.
  apply Z.div_mul. unfold MS_PER_DAY. lia.
Qed.

(** The dates of the record built from a row, for any [today] and any
    reading of the clock. *)
Lemma processRow_need_dates
    (h : Host) (ship excl : gmap string StoredRecord) (today : JsDate)
    (t : Z) (row : gmap string Cell) (idx : nat) :
  (processRow h ship excl today (ValidDate t) row idx = None
   <-> empty_row row = true) /\
  (forall item,
     processRow h ship excl today (ValidDate t) row idx = Some item ->
     (cell_date h (row_get row "NECESS_PC") = Some InvalidDate ->
      NECESS_PC item = today) /\
     (cell_date h (row_get row "NECESS_PC") = None ->
      NECESS_PC item = ValidDate t) /\
     (cell_date h (row_get row "NECESS_SC") = Some InvalidDate ->
      NECESS_SC item = None) /\
     (forall d, NECESS_SC item = Some d ->
        cell_date h (row_get row "NECESS_SC") = Some d /\ isValid d = true)).
Proof.
  split; [apply processRow_emits|].
  intros item H. processRow_inv H. simpl.
  split; [|split; [|split]].
  - destruct (row_get row "NECESS_PC"); simpl; intros [= ->]; done.
  - destruct (row_get row "NECESS_PC"); simpl; intros [=]; done.
  - destruct (row_get row "NECESS_SC"); simpl; intros [= ->];
      repeat case_match; done.
  - intros d. destruct (row_get row "NECESS_SC"); simpl;
      repeat case_match; intros [= <-]; done.
Qed.

(** C4, as the claim states it, fails for an absent contract need-date: the
    record of the import gets the instant at which the row is processed,
    time of day included, and not the start of the day of the import, even
    when the clock reads the same instant for both. *)
Lemma absent_need_date_counterexample :
  ~ (forall h ls clk jsonData (idx : nat) row item,
       jsonData !! idx = Some row ->
       row !! "NECESS_PC" = None ->
       item ∈ processExcelData h ls clk jsonData ->
       processRow h (loadShippedMap ls) (loadExcludedMap ls)
         (startOfDay h (ValidDate (clock_import clk)))
         (ValidDate (clock_row clk idx)) row idx = Some item ->
       NECESS_PC item = startOfDay h (ValidDate (clock_import clk))).
Proof.
  intros H.
  eassert (processRow sampleHost (loadShippedMap emptyStorage)
             (loadExcludedMap emptyStorage)
             (startOfDay sampleHost (ValidDate (clock_import sampleClock)))
             (ValidDate (clock_row sampleClock 0))
             {[ "DESCR_PROD" := CString "PARAFUSO" ]} 0
           = Some _) as Hrow
    by (vm_compute; reflexivity).
  assert (({[ "DESCR_PROD" := CString "PARAFUSO" ]} : gmap string Cell)
          !! "NECESS_PC" = None) as Habsent by reflexivity.
  eassert (_ ∈ processExcelData sampleHost emptyStorage sampleClock
                 [ {[ "DESCR_PROD" := CString "PARAFUSO" ]} ]) as Hin.
  { apply elem_of_processExcelData.
    exists 0%nat, {[ "DESCR_PROD" := CString "PARAFUSO" ]}.
    split; [reflexivity|exact Hrow]. }
  pose proof (H sampleHost emptyStorage sampleClock
                [ {[ "DESCR_PROD" := CString "PARAFUSO" ]} ] 0%nat
                _ _ eq_refl Habsent Hin Hrow) as Heq.
  vm_compute in Heq. discriminate Heq.
Qed.

(** C4, amended. In an import the date fields never decide whether a row is
    emitted: the row at any position is skipped exactly when its
    purchase-order, purchase-contract and product-description cells are all
    falsy, and otherwise its record is in the collection. In that record a
    contract need-date cell that denotes an invalid date (an invalid [Date],
    a string that does not parse, a serial number out of range) is replaced
    with today at start of day, [startOfDay] of the clock reading of the
    import; a cell that denotes no date (absent, or neither a date, a string
    nor a number) is replaced with the clock reading taken when the row is
    processed, as it is, which is its own start of day only when the clock
    reads exactly a start of day. A request need-date cell that denotes an
    invalid date gives an absent date, and a request need-date of the record
    is always the valid date that the cell denotes. *)
Theorem processExcelData_need_dates
    (h : Host) (ls : LocalStorage) (clk : ImportClock)
    (jsonData : list (gmap string Cell)) (idx : nat)
    (row : gmap string Cell) :
  jsonData !! idx = Some row ->
  let today := startOfDay h (ValidDate (clock_import clk)) in
  let now := ValidDate (clock_row clk idx) in
  let built := processRow h (loadShippedMap ls) (loadExcludedMap ls)
                 today now row idx in
  (built = None <-> empty_row row = true) /\
  (forall item,
     built = Some item ->
     item ∈ processExcelData h ls clk jsonData /\
     (cell_date h (row_get row "NECESS_PC") = Some InvalidDate ->
      NECESS_PC item = today) /\
     (cell_date h (row_get row "NECESS_PC") = None ->
      NECESS_PC item = now /\
      (NECESS_PC item = startOfDay h now <-> startOfDay h now = now)) /\
     (cell_date h (row_get row "NECESS_SC") = Some InvalidDate ->
      NECESS_SC item = None) /\
     (forall d, NECESS_SC item = Some d ->
        cell_date h (row_get row "NECESS_SC") = Some d /\ isValid d = true)).
Proof.
  intros Hrow today now built.
  destruct (processRow_need_dates h (loadShippedMap ls) (loadExcludedMap ls)
              today (clock_row clk idx) row idx) as [Hnone Hsome].
  split; [exact Hnone|].
  intros item Hb. destruct (Hsome item Hb) as (Hinv & Habs & Hsc & Hval).
  split; [apply elem_of_processExcelData; eauto|].
  split; [exact Hinv|]. split; [|split; [exact Hsc|exact Hval]].
  intros Hc. specialize (Habs Hc). split; [exact Habs|].
  fold now in Habs. rewrite Habs. split; intros Heq; symmetry; exact Heq.
Qed.

Lemma processExcelData_need_dates_witness :
  let row : gmap string Cell :=
    {[ "NUMERO_PO" := CNumber 4500;
       "NECESS_PC" := CString "em breve";
       "NECESS_SC" := CDate InvalidDate ]} in
  let rowAbsent : gmap string Cell := {[ "NUMERO_PO" := CNumber 4500 ]} in
  (fun item => (NECESS_PC item, NECESS_SC item)) <$>
    processExcelData hostSaoPaulo emptyStorage sampleClock [row; rowAbsent]
  = [(ValidDate (-75600000), None); (ValidDate 1000, None)].
Proof.
  intros row rowAbsent.
  destruct (processRow hostSaoPaulo (loadShippedMap emptyStorage)
              (loadExcludedMap emptyStorage)
              (startOfDay hostSaoPaulo (ValidDate (clock_import sampleClock)))
              (ValidDate (clock_row sampleClock 0)) row 0)
    as [item|] eqn:H0; [|vm_compute in H0; discriminate H0].
  destruct (processRow hostSaoPaulo (loadShippedMap emptyStorage)
              (loadExcludedMap emptyStorage)
              (startOfDay hostSaoPaulo (ValidDate (clock_import sampleClock)))
              (ValidDate (clock_row sampleClock 1)) rowAbsent 1)
    as [item'|] eqn:H1; [|vm_compute in H1; discriminate H1].
  destruct (proj2 (processExcelData_need_dates hostSaoPaulo emptyStorage
                     sampleClock [row; rowAbsent] 0 row eq_refl) item H0)
    as (_ & Hpc & _ & Hsc & _).
  destruct (proj2 (processExcelData_need_dates hostSaoPaulo emptyStorage
                     sampleClock [row; rowAbsent] 1 rowAbsent eq_refl)
              item' H1)
    as (_ & _ & Habs & _ & _).
  specialize (Hpc eq_refl). specialize (Hsc eq_refl).
  destruct (Habs eq_refl) as [Hnow _].
  assert (processExcelData hostSaoPaulo emptyStorage sampleClock
            [row; rowAbsent] = [item; item']) as ->.
  { unfold processExcelData. cbn [imap omap list_omap]. unfold compose.
    rewrite H0. cbn [imap omap list_omap]. by rewrite H1. }
  assert (NECESS_SC item' = None) as Hsc'
    by (vm_compute in H1; injection H1 as <-; reflexivity).
  cbn [fmap list_fmap]. rewrite Hpc, Hsc, Hnow, Hsc'. reflexivity.
Defined.

(** At a fixed offset, an absent contract need-date and an invalid one give
    the same day count, 0, as long as the row is processed at the instant of
    the import. *)
Lemma absent_need_date_day_count h ship excl c t row idx item :
  fixed_offset h c ->
  processRow h ship excl (startOfDay h (ValidDate t)) (ValidDate t) row idx
    = Some item ->
  cell_date h (row_get row "NECESS_PC") = None ->
  NECESS_PC item = ValidDate t /\ DIAS_PARA_NECESS item = 0.
Proof.
  intros Hc H Hcd. pose proof (differenceInCalendarDays_today_fixed h c t t Hc)
    as Hd.
  rewrite (startOfDay_fixed h c t Hc) in H, Hd. processRow_inv H.
  destruct (row_get row "NECESS_PC"); try discriminate Hcd;
    cbn [NECESS_PC DIAS_PARA_NECESS isValid];
    (split; [reflexivity|]); rewrite Hd; lia.
Qed.

(** C5, as the claim states it, fails for the contract numbers: an absent
    purchase-contract number becomes the placeholder N/A and an absent
    request-contract number stays absent. *)
Lemma placeholder_counterexample :
  ~ (forall h ship excl today rowNow row idx item,
       processRow h ship excl today rowNow row idx = Some item ->
       (row !! "RAZAO_FORNEC" = None -> RAZAO_FORNEC item = CString "-") /\
       (row !! "DESCR_PROD" = None -> DESCR_PROD item = CString "-") /\
       (row !! "VOLUME_PC" = None -> VOLUME_PC item = CString "-") /\
       (row !! "NUMERO_PC" = None -> NUMERO_PC item = CString "-") /\
       (row !! "NUMERO_SC" = None -> NUMERO_SC item = CString "-")).
Proof.
  intros H.
  eassert (processRow sampleHost ∅ ∅ (ValidDate 0) (ValidDate 1000)
             {[ "NUMERO_PO" := CNumber 4500 ]} 0 = Some _) as Hrow
    by (vm_compute; reflexivity).
  destruct (H _ _ _ _ _ _ _ _ Hrow) as (_ & _ & _ & Hpc & _).
  specialize (Hpc eq_refl). discriminate Hpc.
Qed.

Lemma request_number_counterexample :
  ~ (forall h ship excl today rowNow row idx item,
       processRow h ship excl today rowNow row idx = Some item ->
       row !! "NUMERO_SC" = None -> NUMERO_SC item = CString "-").
Proof.
  intros H.
  eassert (processRow sampleHost ∅ ∅ (ValidDate 0) (ValidDate 1000)
             {[ "NUMERO_PO" := CNumber 4500 ]} 0 = Some _) as Hrow
    by (vm_compute; reflexivity).
  specialize (H _ _ _ _ _ _ _ _ Hrow eq_refl). discriminate H.
Qed.

(** C5, amended. In every emitted record an absent supplier name, product
    description or volume is replaced with the placeholder "-"; an absent
    purchase-contract number is replaced with the placeholder N/A; an absent
    request-contract number is left absent. *)
Theorem processRow_placeholders
    (h : Host) (ship excl : gmap string StoredRecord) (today rowNow : JsDate)
    (row : gmap string Cell) (idx : nat) (item : ImportItem) :
  processRow h ship excl today rowNow row idx = Some item ->
  (row !! "RAZAO_FORNEC" = None -> RAZAO_FORNEC item = CString "-") /\
  (row !! "DESCR_PROD" = None -> DESCR_PROD item = CString "-") /\
  (row !! "VOLUME_PC" = None -> VOLUME_PC item = CString "-") /\
  (row !! "NUMERO_PC" = None -> NUMERO_PC item = CString "N/A") /\
  (row !! "NUMERO_SC" = None -> NUMERO_SC item = CUndefined).
Proof.
  intros H. processRow_inv H. simpl. unfold row_get.
  repeat split; intros ->; reflexivity.
Qed.

Lemma processRow_placeholders_witness :
  let row : gmap string Cell := {[ "NUMERO_PO" := CNumber 4500 ]} in
  exists item,
    processRow sampleHost ∅ ∅ (ValidDate 0) (ValidDate 1000) row 0 = Some item /\
    RAZAO_FORNEC item = CString "-" /\ DESCR_PROD item = CString "-" /\
    VOLUME_PC item = CString "-" /\ NUMERO_PC item = CString "N/A" /\
    NUMERO_SC item = CUndefined.
Proof.
  intros row.
  destruct (processRow sampleHost ∅ ∅ (ValidDate 0) (ValidDate 1000) row 0)
    as [item|] eqn:Hrow; [|vm_compute in Hrow; discriminate Hrow].
  exists item. split; [reflexivity|].
  destruct (processRow_placeholders sampleHost ∅ ∅ (ValidDate 0)
              (ValidDate 1000) row 0%nat item Hrow)
    as (H1 & H2 & H3 & H4 & H5).
  repeat split; [apply H1|apply H2|apply H3|apply H4|apply H5]; reflexivity.
Defined.

(** * Further properties of the code *)

(** ** The override stores *)

Lemma removeShippedItem_absent (id0 : string) (ls : LocalStorage) :
  loadShippedMap ls !! id0 = None -> removeShippedItem id0 ls = ls.
Proof. intros H. unfold removeShippedItem. by rewrite H. Qed.

Lemma removeExcludedItem_absent (id0 : string) (ls : LocalStorage) :
  loadExcludedMap ls !! id0 = None -> removeExcludedItem id0 ls = ls.
Proof. intros H. unfold removeExcludedItem. by rewrite H. Qed.

Lemma loadShippedMap_remove (id0 : string) (ls : LocalStorage) :
  loadShippedMap (removeShippedItem id0 ls) = delete id0 (loadShippedMap ls).
Proof.
  unfold removeShippedItem.
  destruct (loadShippedMap ls !! id0) eqn:E; [reflexivity|].
  symmetry. by apply delete_id.
Qed.

Lemma loadExcludedMap_remove (id0 : string) (ls : LocalStorage) :
  loadExcludedMap (removeExcludedItem id0 ls) = delete id0 (loadExcludedMap ls).
Proof.
  unfold removeExcludedItem.
  destruct (loadExcludedMap ls !! id0) eqn:E; [reflexivity|].
  symmetry. by apply delete_id.
Qed.

Lemma loadShippedMap_save (id0 now : string) (ls : LocalStorage) :
  loadShippedMap (saveShippedItem id0 now ls)
  = <[id0 := mkStoredRecord now]> (loadShippedMap ls).
Proof. reflexivity. Qed.

Lemma loadExcludedMap_save (id0 now : string) (ls : LocalStorage) :
  loadExcludedMap (saveExcludedItem id0 now ls)
  = <[id0 := mkStoredRecord now]> (loadExcludedMap ls).
Proof. reflexivity. Qed.

(** X1. Saving an identity in one store makes that store hold the new time
    stamp for it, keeps the entries of every other identity, and leaves the
    other store's item as it is; on a missing or unreadable item the store
    starts from the empty object, so the identity is then its only entry. *)
Theorem save_item_lookup (id0 now : string) (ls : LocalStorage) :
  (loadShippedMap (saveShippedItem id0 now ls) !! id0
     = Some (mkStoredRecord now) /\
   (forall j, j <> id0 ->
      loadShippedMap (saveShippedItem id0 now ls) !! j
      = loadShippedMap ls !! j) /\
   importflow_excluded_items (saveShippedItem id0 now ls)
     = importflow_excluded_items ls /\
   (importflow_shipped_items ls = None ->
    loadShippedMap (saveShippedItem id0 now ls)
      = {[ id0 := mkStoredRecord now ]})) /\
  (loadExcludedMap (saveExcludedItem id0 now ls) !! id0
     = Some (mkStoredRecord now) /\
   (forall j, j <> id0 ->
      loadExcludedMap (saveExcludedItem id0 now ls) !! j
      = loadExcludedMap ls !! j) /\
   importflow_shipped_items (saveExcludedItem id0 now ls)
     = importflow_shipped_items ls /\
   (importflow_excluded_items ls = None ->
    loadExcludedMap (saveExcludedItem id0 now ls)
      = {[ id0 := mkStoredRecord now ]})).
Proof.
  unfold saveShippedItem, saveExcludedItem, loadShippedMap, loadExcludedMap.
  simpl. split; (split; [apply lookup_insert_eq|]);
    (split; [intros j Hj; by apply lookup_insert_ne|]);
    (split; [reflexivity|]); intros ->; simpl; apply insert_empty.
Qed.

Lemma save_item_lookup_witness :
  loadShippedMap (saveShippedItem "4500-77-0" "t1" emptyStorage) !! "4500-77-1"
    = None /\
  loadShippedMap (saveShippedItem "4500-77-0" "t1" emptyStorage)
    = {[ "4500-77-0" := mkStoredRecord "t1" ]}.
Proof.
  split.
  - rewrite (proj1 (proj2 (proj1
               (save_item_lookup "4500-77-0" "t1" emptyStorage)))
               "4500-77-1"); [reflexivity|discriminate].
  - apply (save_item_lookup "4500-77-0" "t1" emptyStorage). reflexivity.
Defined.

(** X2. Removing an identity from a store leaves no entry for it and keeps
    the entries of every other identity; when the store has no entry for the
    identity nothing is written at all, so a missing or unreadable item
    stays as it is. *)
Theorem remove_item_lookup (id0 : string) (ls : LocalStorage) :
  (loadShippedMap (removeShippedItem id0 ls) !! id0 = None /\
   (forall j, j <> id0 ->
      loadShippedMap (removeShippedItem id0 ls) !! j
      = loadShippedMap ls !! j) /\
   importflow_excluded_items (removeShippedItem id0 ls)
     = importflow_excluded_items ls /\
   (loadShippedMap ls !! id0 = None -> removeShippedItem id0 ls = ls)) /\
  (loadExcludedMap (removeExcludedItem id0 ls) !! id0 = None /\
   (forall j, j <> id0 ->
      loadExcludedMap (removeExcludedItem id0 ls) !! j
      = loadExcludedMap ls !! j) /\
   importflow_shipped_items (removeExcludedItem id0 ls)
     = importflow_shipped_items ls /\
   (loadExcludedMap ls !! id0 = None -> removeExcludedItem id0 ls = ls)).
Proof.
  unfold removeShippedItem, removeExcludedItem. split.
  - destruct (loadShippedMap ls !! id0) eqn:E.
    + unfold loadShippedMap at 1 2. simpl.
      split; [apply lookup_delete_eq|].
      split; [intros j Hj; by apply lookup_delete_ne|].
      split; [reflexivity|discriminate].
    + repeat split; done.
  - destruct (loadExcludedMap ls !! id0) eqn:E.
    + unfold loadExcludedMap at 1 2. simpl.
      split; [apply lookup_delete_eq|].
      split; [intros j Hj; by apply lookup_delete_ne|].
      split; [reflexivity|discriminate].
    + repeat split; done.
Qed.

Lemma remove_item_lookup_witness :
  removeShippedItem "4500-77-0" emptyStorage = emptyStorage /\
  loadExcludedMap
    (removeExcludedItem "4500-77-0"
       (saveExcludedItem "4500-77-1" "t1" emptyStorage)) !! "4500-77-1"
  = Some (mkStoredRecord "t1").
Proof.
  split.
  - apply (remove_item_lookup "4500-77-0" emptyStorage). reflexivity.
  - rewrite (proj1 (proj2 (proj2
               (remove_item_lookup "4500-77-0"
                  (saveExcludedItem "4500-77-1" "t1" emptyStorage))))
               "4500-77-1"); [reflexivity|discriminate].
Defined.

(** X3. Saving an identity and then removing it gives the store the entries
    it had without that identity: the entries it had before, when the
    identity was new. A second save only replaces the time stamp, and a
    second removal changes nothing. *)
Theorem save_remove_round_trip (id0 now now' : string) (ls : LocalStorage) :
  loadShippedMap (removeShippedItem id0 (saveShippedItem id0 now ls))
    = delete id0 (loadShippedMap ls) /\
  loadExcludedMap (removeExcludedItem id0 (saveExcludedItem id0 now ls))
    = delete id0 (loadExcludedMap ls) /\
  (loadShippedMap ls !! id0 = None ->
   loadShippedMap (removeShippedItem id0 (saveShippedItem id0 now ls))
     = loadShippedMap ls) /\
  (loadExcludedMap ls !! id0 = None ->
   loadExcludedMap (removeExcludedItem id0 (saveExcludedItem id0 now ls))
     = loadExcludedMap ls) /\
  saveShippedItem id0 now' (saveShippedItem id0 now ls)
    = saveShippedItem id0 now' ls /\
  saveExcludedItem id0 now' (saveExcludedItem id0 now ls)
    = saveExcludedItem id0 now' ls /\
  removeShippedItem id0 (removeShippedItem id0 ls) = removeShippedItem id0 ls /\
  removeExcludedItem id0 (removeExcludedItem id0 ls)
    = removeExcludedItem id0 ls.
Proof.
  assert (loadShippedMap (removeShippedItem id0 (saveShippedItem id0 now ls))
          = delete id0 (loadShippedMap ls)) as Hs.
  { rewrite loadShippedMap_remove, loadShippedMap_save.
    apply delete_insert_eq. }
  assert (loadExcludedMap (removeExcludedItem id0 (saveExcludedItem id0 now ls))
          = delete id0 (loadExcludedMap ls)) as He.
  { rewrite loadExcludedMap_remove, loadExcludedMap_save.
    apply delete_insert_eq. }
  split; [exact Hs|]. split; [exact He|].
  split; [intros Hn; rewrite Hs; by apply delete_id|].
  split; [intros Hn; rewrite He; by apply delete_id|].
  split.
  { unfold saveShippedItem, loadShippedMap. simpl. by rewrite insert_insert_eq. }
  split.
  { unfold saveExcludedItem, loadExcludedMap. simpl. by rewrite insert_insert_eq. }
  split.
  - apply removeShippedItem_absent. rewrite loadShippedMap_remove.
    apply lookup_delete_eq.
  - apply removeExcludedItem_absent. rewrite loadExcludedMap_remove.
    apply lookup_delete_eq.
Qed.

Lemma save_remove_round_trip_witness :
  let ls := saveShippedItem "4500-77-1" "t0" emptyStorage in
  loadShippedMap (removeShippedItem "4500-77-0"
                    (saveShippedItem "4500-77-0" "t1" ls))
  = loadShippedMap ls.
Proof.
  intros ls.
  apply (save_remove_round_trip "4500-77-0" "t1" "t1" ls). reflexivity.
Defined.

(** ** The import *)

Lemma length_omap_imap (f : nat -> gmap string Cell -> option ImportItem)
    (rows : list (gmap string Cell)) :
  (forall i row, f i row = None <-> empty_row row = true) ->
  length (omap (fun o : option ImportItem => o) (imap f rows))
  = length (List.filter (fun row => negb (empty_row row)) rows).
Proof.
  revert f. induction rows as [|row rows IH]; intros f Hf; [done|].
  rewrite imap_cons. cbn [omap list_omap List.filter].
  pose proof (Hf 0%nat row) as H0.
  destruct (f 0%nat row) as [item|] eqn:E; destruct (empty_row row) eqn:Er;
    simpl.
  - discriminate (proj2 H0 eq_refl).
  - f_equal. apply IH. intros i r. apply (Hf (S i) r).
  - apply IH. intros i r. apply (Hf (S i) r).
  - discriminate (proj1 H0 eq_refl).
Qed.

(** X4. An import emits one record for each row in which the purchase
    order, the purchase contract or the product description is truthy, and
    nothing for the other rows: the number of records is the number of such
    rows, and a sheet of empty rows gives the empty collection. *)
Theorem processExcelData_length
    (h : Host) (ls : LocalStorage) (clk : ImportClock)
    (jsonData : list (gmap string Cell)) :
  length (processExcelData h ls clk jsonData)
    = length (List.filter (fun row => negb (empty_row row)) jsonData) /\
  (length (processExcelData h ls clk jsonData) <= length jsonData)%nat /\
  (Forall (fun row => empty_row row = true) jsonData ->
   processExcelData h ls clk jsonData = []).
Proof.
  assert (length (processExcelData h ls clk jsonData)
    = length (List.filter (fun row => negb (empty_row row)) jsonData)) as Hlen.
  { unfold processExcelData. apply length_omap_imap.
    intros i row. apply processRow_emits. }
  split; [exact Hlen|]. split.
  - rewrite Hlen. apply List.filter_length_le.
  - intros Hall. apply length_zero_iff_nil. rewrite Hlen. clear Hlen.
    induction Hall as [|row rows Hrow _ IH]; [reflexivity|].
    simpl. rewrite Hrow. exact IH.
Qed.

Lemma processExcelData_length_witness :
  processExcelData sampleHost emptyStorage sampleClock
    [ ∅; {[ "RAZAO_FORNEC" := CString "ACME" ]};
      {[ "NUMERO_PO" := CNumber 0; "NUMERO_PC" := CString "" ]} ]
  = [].
Proof.
  apply (processExcelData_length sampleHost emptyStorage sampleClock).
  repeat constructor.
Defined.

Lemma trim_empty_string : trim "" = "".
Proof. reflexivity. Qed.

Lemma calculateStatus_computed (d : Z) :
  calculateStatus d <> EMBARCADO /\ calculateStatus d <> NACIONAL.
Proof. unfold calculateStatus. repeat case_match; done. Qed.

(** The status, the purchase order and the shipping date of the record
    built from a row. *)
Lemma processRow_status h ship excl today rowNow row idx item :
  processRow h ship excl today rowNow row idx = Some item ->
  status item =
    (if rowIsNational h row then NACIONAL
     else if bool_decide (is_Some (ship !! id item)) then EMBARCADO
          else calculateStatus (DIAS_PARA_NECESS item)) /\
  NUMERO_PO item =
    (if rowIsNational h row then CString "" else row_get row "NUMERO_PO") /\
  DATA_CHECK_EMBARQUE item =
    (if rowIsNational h row then None else date <$> ship !! id item).
Proof.
  intros H. processRow_inv H. unfold rowIsNational.
  cbn [status NUMERO_PO DATA_CHECK_EMBARQUE DIAS_PARA_NECESS id].
  repeat split; reflexivity.
Qed.

Lemma rowIsNational_false_po h row :
  rowIsNational h row = false -> row_get row "NUMERO_PO" <> CString "".
Proof.
  unfold rowIsNational. intros H Hpo. rewrite Hpo in H.
  vm_compute in H. discriminate H.
Qed.

(** X5. A record is NACIONAL exactly when its purchase-order field was
    emptied by the builder, that is when the purchase-order cell is
    undefined, null or blank, made of nothing but the white space that
    [trim] strips, U+00A0 and the other Unicode spaces included; such a
    record has an identity that starts with NAT- and never carries a
    shipping date, whatever the shipped store holds. *)
Theorem processRow_national
    (h : Host) (ship excl : gmap string StoredRecord) (today rowNow : JsDate)
    (row : gmap string Cell) (idx : nat) (item : ImportItem) :
  processRow h ship excl today rowNow row idx = Some item ->
  (status item = NACIONAL <-> NUMERO_PO item = CString "") /\
  (status item = NACIONAL <->
   match row_get row "NUMERO_PO" with
   | CUndefined | CNull => True
   | c => trim (js_String h c) = ""
   end) /\
  (status item = NACIONAL ->
   DATA_CHECK_EMBARQUE item = None /\
   exists rest, id item = "NAT-" ++ rest).
Proof.
  intros H.
  destruct (processRow_status _ _ _ _ _ _ _ _ H) as (Hst & Hpo & Hdt).
  assert (status item = NACIONAL <-> rowIsNational h row = true) as Hnat.
  { rewrite Hst. destruct (rowIsNational h row); [done|].
    pose proof (calculateStatus_computed (DIAS_PARA_NECESS item)) as [_ Hc].
    case_match; split; done. }
  split; [|split].
  - rewrite Hnat, Hpo. destruct (rowIsNational h row) eqn:E; [done|].
    split; [done|]. intros Hc. by apply rowIsNational_false_po in E.
  - rewrite Hnat. unfold rowIsNational. cbv zeta. clear.
    destruct (row_get row "NUMERO_PO"); try done; apply String.eqb_eq.
  - intros Hn. apply Hnat in Hn. split; [by rewrite Hdt, Hn|].
    processRow_inv H. cbn [id].
    change (match row_get row "NUMERO_PO" with
            | CUndefined | CNull => true
            | _ => String.eqb (trim (js_String h (row_get row "NUMERO_PO"))) ""
            end) with (rowIsNational h row).
    rewrite Hn. by eexists.
Qed.

Lemma processRow_national_witness :
  let nbsp := String (ascii_of_nat 194) (String (ascii_of_nat 160) "") in
  let row : gmap string Cell :=
    {[ "NUMERO_PO" := CString (" " ++ nbsp ++ " ");
       "DESCR_PROD" := CString "PARAFUSO" ]} in
  exists item,
    processRow sampleHost {[ "NAT-N/A-0" := mkStoredRecord "t0" ]} ∅
      (ValidDate 0) (ValidDate 1000) row 0 = Some item /\
    status item = NACIONAL /\ DATA_CHECK_EMBARQUE item = None.
Proof.
  intros nbsp row.
  destruct (processRow sampleHost {[ "NAT-N/A-0" := mkStoredRecord "t0" ]} ∅
              (ValidDate 0) (ValidDate 1000) row 0)
    as [item|] eqn:Hrow; [|vm_compute in Hrow; discriminate Hrow].
  exists item. split; [reflexivity|].
  destruct (processRow_national _ _ _ _ _ _ _ _ Hrow) as (_ & Hblank & Hnat).
  assert (status item = NACIONAL) as Hst by (apply Hblank; reflexivity).
  split; [exact Hst|]. apply (Hnat Hst).
Defined.

Lemma processRow_dates h ship excl today rowNow row idx item :
  processRow h ship excl today rowNow row idx = Some item ->
  isValid today = true ->
  isValid (NECESS_PC item) = true /\
  DIAS_PARA_NECESS item = differenceInCalendarDays h (NECESS_PC item) today /\
  (forall d, NECESS_SC item = Some d -> isValid d = true).
Proof.
  intros H Ht. processRow_inv H.
  cbn [NECESS_PC DIAS_PARA_NECESS NECESS_SC].
  split; [by case_match|]. split; [reflexivity|].
  intros d. repeat case_match; intros [= <-]; done.
Qed.





Lemma fmap_omap_imap_ext {B : Type} (g : ImportItem -> B)
    (f1 f2 : nat -> gmap string Cell -> option ImportItem)
    (rows : list (gmap string Cell)) :
  (forall i row, g <$> f1 i row = g <$> f2 i row) ->
  g <$> omap (fun o : option ImportItem => o) (imap f1 rows)
  = g <$> omap (fun o : option ImportItem => o) (imap f2 rows).
Proof.
  revert f1 f2. induction rows as [|row rows IH]; intros f1 f2 Hf; [done|].
  rewrite !imap_cons. cbn [omap list_omap].
  pose proof (Hf 0%nat row) as H0.
  pose proof (IH (f1 ∘ S) (f2 ∘ S) (fun i r => Hf (S i) r)) as IH'.
  destruct (f1 0%nat row), (f2 0%nat row); simpl in H0; try discriminate H0.
  - rewrite !fmap_cons. injection H0 as ->. by rewrite IH'.
  - exact IH'.
Qed.

(** X8. The identities that an import gives do not depend on the override
    stores nor on the clock: importing the same rows again gives the same
    identities in the same order. With the same clock, the stores decide
    nothing but the status, the shipping date and the excluded flag. *)
Theorem processExcelData_identity_stable
    (h : Host) (ls ls' : LocalStorage) (clk clk' : ImportClock)
    (jsonData : list (gmap string Cell)) :
  id <$> processExcelData h ls clk jsonData
    = id <$> processExcelData h ls' clk' jsonData /\
  descriptive <$> processExcelData h ls clk jsonData
    = descriptive <$> processExcelData h ls' clk jsonData.
Proof.
  unfold processExcelData. split; apply fmap_omap_imap_ext; intros i row;
    unfold processRow; case_match; reflexivity.
Qed.

(** ** Invariants of the application state *)

Lemma processRow_wellformed h ship excl today rowNow row idx item :
  processRow h ship excl today rowNow row idx = Some item ->
  isValid today = true -> wellformed item.
Proof.
  intros H Ht.
  pose proof (processRow_classified _ _ _ _ _ _ _ _ H) as Hc.
  destruct (processRow_status _ _ _ _ _ _ _ _ H) as (Hst & Hpo & Hdt).
  destruct (processRow_dates _ _ _ _ _ _ _ _ H Ht) as (Hv & _ & _).
  pose proof (calculateStatus_computed (DIAS_PARA_NECESS item)) as [Hne Hnn].
  split; [exact Hc|]. split; [|split; [|exact Hv]].
  - rewrite Hst, Hdt. destruct (rowIsNational h row).
    + split; [done|]. by intros [? ?].
    + destruct (ship !! id item) as [rec|] eqn:E; simpl.
      * split; eauto.
      * split; [done|]. by intros [? ?].
  - rewrite Hst, Hpo. destruct (rowIsNational h row) eqn:E; [done|].
    split.
    + case_match; done.
    + intros Hpo'. by apply rowIsNational_false_po in E.
Qed.

Lemma with_shipping_EMBARCADO_wellformed (r : ImportItem) (t : string) :
  wellformed r -> status r <> NACIONAL ->
  wellformed (with_shipping EMBARCADO (Some t) r).
Proof.
  intros (Hc & Hd & Hn & Hv) Hnn. unfold wellformed, classified. simpl.
  split; [tauto|]. split; [split; eauto|]. split; [|exact Hv].
  split; [done|]. intros Hpo. by apply Hn in Hpo.
Qed.

Lemma with_shipping_computed_wellformed (r : ImportItem) :
  wellformed r -> status r = EMBARCADO ->
  wellformed (with_shipping (calculateStatus (DIAS_PARA_NECESS r)) None r).
Proof.
  intros (Hc & Hd & Hn & Hv) He. unfold wellformed, classified. simpl.
  pose proof (calculateStatus_computed (DIAS_PARA_NECESS r)) as [Hne Hnn].
  split; [tauto|]. split; [split; [done|by intros [? ?]]|].
  split; [|exact Hv].
  split; [done|]. intros Hpo. apply Hn in Hpo. congruence.
Qed.

Lemma with_isExcluded_wellformed (r : ImportItem) (b : bool) :
  wellformed r -> wellformed (with_isExcluded b r).
Proof. intros H. exact H. Qed.

Lemma handlers_keep_wellformed (st : AppState) id0 nowStore nowItem :
  Forall wellformed (items st) ->
  Forall wellformed (items (handleMarkShipped id0 nowStore nowItem st)) /\
  Forall wellformed (items (handleUnmarkShipped id0 st)) /\
  Forall wellformed (items (handleExclude id0 nowStore st)) /\
  Forall wellformed (items (handleRestore id0 st)).
Proof.
  intros Hall. repeat split; apply Forall_lookup; intros i r';
    [rewrite handleMarkShipped_lookup | rewrite handleUnmarkShipped_lookup
    | rewrite handleExclude_lookup | rewrite handleRestore_lookup];
    destruct (items st !! i) as [r|] eqn:Hi; simpl; try discriminate;
    pose proof (proj1 (Forall_lookup _ _) Hall i r Hi) as Hr;
    intros [= <-].
  - destruct (bool_decide (id r = id0)); simpl; [|exact Hr].
    destruct (decide (status r = NACIONAL)) as [Hn|Hn].
    + by rewrite (bool_decide_eq_true_2 _ Hn).
    + rewrite (bool_decide_eq_false_2 _ Hn). simpl.
      by apply with_shipping_EMBARCADO_wellformed.
  - destruct (bool_decide (id r = id0)); simpl; [|exact Hr].
    destruct (decide (status r = EMBARCADO)) as [He|He].
    + rewrite (bool_decide_eq_true_2 _ He).
      by apply with_shipping_computed_wellformed.
    + by rewrite (bool_decide_eq_false_2 _ He).
  - case_match; [by apply with_isExcluded_wellformed|exact Hr].
  - case_match; [by apply with_isExcluded_wellformed|exact Hr].
Qed.

Lemma processExcelData_wellformed h ls clk rows :
  Forall wellformed (processExcelData h ls clk rows).
Proof.
  apply Forall_forall. intros item Hin.
  apply elem_of_processExcelData in Hin as (idx & row & _ & Hp).
  by eapply processRow_wellformed.
Qed.

(** X9. In every state of the application (after an import and any
    sequence of mark, unmark, exclude and restore), each record is
    classified, has a shipping date exactly when it is EMBARCADO, has an
    empty purchase order exactly when it is NACIONAL, and has a valid
    contract need-date. *)
Theorem reachable_wellformed (st : AppState) :
  reachable st -> Forall wellformed (items st).
Proof.
  induction 1 as [h ls clk rows|st id0 t1 t2 _ IH|st id0 _ IH
                 |st id0 t1 _ IH|st id0 _ IH].
  - apply processExcelData_wellformed.
  - apply (handlers_keep_wellformed st id0 t1 t2 IH).
  - apply (handlers_keep_wellformed st id0 "" (fun _ => "") IH).
  - apply (handlers_keep_wellformed st id0 t1 (fun _ => "") IH).
  - apply (handlers_keep_wellformed st id0 "" (fun _ => "") IH).
Qed.

Lemma import_consistent h ls clk rows :
  consistent {| items := processExcelData h ls clk rows; localStorage := ls |}.
Proof.
  intros r Hin. simpl in Hin |- *.
  apply elem_of_processExcelData in Hin as (idx & row & _ & Hp).
  pose proof (processRow_isExcluded _ _ _ _ _ _ _ _ Hp) as Hex.
  destruct (processRow_status _ _ _ _ _ _ _ _ Hp) as (Hst & _ & _).
  pose proof (calculateStatus_computed (DIAS_PARA_NECESS r)) as [Hne _].
  split.
  - rewrite Hex. apply bool_decide_eq_true.
  - intros Hn. rewrite Hst in Hn |- *.
    destruct (rowIsNational h row); [done|].
    destruct (decide (is_Some (loadShippedMap ls !! id r))) as [Hs|Hs].
    + rewrite (bool_decide_eq_true_2 _ Hs). done.
    + rewrite (bool_decide_eq_false_2 _ Hs). done.
Qed.

Lemma handleMarkShipped_consistent st id0 nowStore nowItem :
  consistent st -> consistent (handleMarkShipped id0 nowStore nowItem st).
Proof.
  intros Hc r' Hin. apply list_elem_of_lookup in Hin as [i Hi].
  rewrite handleMarkShipped_lookup in Hi.
  destruct (items st !! i) as [r|] eqn:Hr; [|discriminate Hi].
  injection Hi as <-.
  destruct (Hc r (list_elem_of_lookup_2 _ _ _ Hr)) as [Hex Hsh].
  change (loadExcludedMap (localStorage (handleMarkShipped id0 nowStore nowItem st)))
    with (loadExcludedMap (localStorage st)).
  change (loadShippedMap (localStorage (handleMarkShipped id0 nowStore nowItem st)))
    with (<[id0 := mkStoredRecord nowStore]> (loadShippedMap (localStorage st))).
  destruct (decide (id r = id0)) as [Hid|Hid].
  - rewrite (bool_decide_eq_true_2 _ Hid).
    destruct (decide (status r = NACIONAL)) as [Hn|Hn].
    + rewrite (bool_decide_eq_true_2 _ Hn). simpl. split; [exact Hex|done].
    + rewrite (bool_decide_eq_false_2 _ Hn). simpl. split; [exact Hex|].
      intros _. rewrite Hid, lookup_insert_eq. split; eauto.
  - rewrite (bool_decide_eq_false_2 _ Hid). simpl. split; [exact Hex|].
    rewrite lookup_insert_ne by done. exact Hsh.
Qed.

Lemma handleUnmarkShipped_consistent st id0 :
  consistent st -> consistent (handleUnmarkShipped id0 st).
Proof.
  intros Hc r' Hin. apply list_elem_of_lookup in Hin as [i Hi].
  rewrite handleUnmarkShipped_lookup in Hi.
  destruct (items st !! i) as [r|] eqn:Hr; [|discriminate Hi].
  injection Hi as <-.
  destruct (Hc r (list_elem_of_lookup_2 _ _ _ Hr)) as [Hex Hsh].
  change (loadExcludedMap (localStorage (handleUnmarkShipped id0 st)))
    with (loadExcludedMap (removeShippedItem id0 (localStorage st))).
  change (loadShippedMap (localStorage (handleUnmarkShipped id0 st)))
    with (loadShippedMap (removeShippedItem id0 (localStorage st))).
  rewrite loadShippedMap_remove.
  assert (loadExcludedMap (removeShippedItem id0 (localStorage st))
          = loadExcludedMap (localStorage st)) as ->.
  { unfold removeShippedItem. by case_match. }
  pose proof (calculateStatus_computed (DIAS_PARA_NECESS r)) as [Hne Hnn].
  destruct (decide (id r = id0)) as [Hid|Hid].
  - rewrite (bool_decide_eq_true_2 _ Hid).
    destruct (decide (status r = EMBARCADO)) as [He|He].
    + rewrite (bool_decide_eq_true_2 _ He). simpl. split; [exact Hex|].
      intros _. rewrite Hid, lookup_delete_eq. split; [done|by intros [? ?]].
    + rewrite (bool_decide_eq_false_2 _ He). simpl. split; [exact Hex|].
      intros _. rewrite Hid, lookup_delete_eq. split; [done|by intros [? ?]].
  - rewrite (bool_decide_eq_false_2 _ Hid). simpl. split; [exact Hex|].
    rewrite lookup_delete_ne by done. exact Hsh.
Qed.

Lemma handleExclude_consistent st id0 nowStore :
  consistent st -> consistent (handleExclude id0 nowStore st).
Proof.
  intros Hc r' Hin. apply list_elem_of_lookup in Hin as [i Hi].
  rewrite handleExclude_lookup in Hi.
  destruct (items st !! i) as [r|] eqn:Hr; [|discriminate Hi].
  injection Hi as <-.
  destruct (Hc r (list_elem_of_lookup_2 _ _ _ Hr)) as [Hex Hsh].
  change (loadShippedMap (localStorage (handleExclude id0 nowStore st)))
    with (loadShippedMap (localStorage st)).
  change (loadExcludedMap (localStorage (handleExclude id0 nowStore st)))
    with (<[id0 := mkStoredRecord nowStore]> (loadExcludedMap (localStorage st))).
  destruct (decide (id r = id0)) as [Hid|Hid].
  - rewrite (bool_decide_eq_true_2 _ Hid). simpl. split; [|exact Hsh].
    rewrite Hid, lookup_insert_eq. split; eauto.
  - rewrite (bool_decide_eq_false_2 _ Hid). split; [|exact Hsh].
    rewrite lookup_insert_ne by done. exact Hex.
Qed.

Lemma handleRestore_consistent st id0 :
  consistent st -> consistent (handleRestore id0 st).
Proof.
  intros Hc r' Hin. apply list_elem_of_lookup in Hin as [i Hi].
  rewrite handleRestore_lookup in Hi.
  destruct (items st !! i) as [r|] eqn:Hr; [|discriminate Hi].
  injection Hi as <-.
  destruct (Hc r (list_elem_of_lookup_2 _ _ _ Hr)) as [Hex Hsh].
  change (loadShippedMap (localStorage (handleRestore id0 st)))
    with (loadShippedMap (removeExcludedItem id0 (localStorage st))).
  change (loadExcludedMap (localStorage (handleRestore id0 st)))
    with (loadExcludedMap (removeExcludedItem id0 (localStorage st))).
  rewrite loadExcludedMap_remove.
  assert (loadShippedMap (removeExcludedItem id0 (localStorage st))
          = loadShippedMap (localStorage st)) as ->.
  { unfold removeExcludedItem. by case_match. }
  destruct (decide (id r = id0)) as [Hid|Hid].
  - rewrite (bool_decide_eq_true_2 _ Hid). simpl. split; [|exact Hsh].
    rewrite Hid, lookup_delete_eq. split; [done|by intros [? ?]].
  - rewrite (bool_decide_eq_false_2 _ Hid). split; [|exact Hsh].
    rewrite lookup_delete_ne by done. exact Hex.
Qed.

(** X10. In every state of the application the collection agrees with the
    stores: a record is excluded exactly when the excluded store has an
    entry for its identity, and a record that is not NACIONAL is EMBARCADO
    exactly when the shipped store has one. *)
Theorem reachable_consistent (st : AppState) :
  reachable st -> consistent st.
Proof.
  induction 1.
  - apply import_consistent.
  - by apply handleMarkShipped_consistent.
  - by apply handleUnmarkShipped_consistent.
  - by apply handleExclude_consistent.
  - by apply handleRestore_consistent.
Qed.

Lemma sampleState_reachable : reachable sampleState.
Proof. apply reachable_exclude, reachable_markShipped, reachable_import. Qed.

Lemma reachable_wellformed_witness : Forall wellformed (items sampleState).
Proof. apply (reachable_wellformed sampleState sampleState_reachable). Defined.

Lemma reachable_consistent_witness : consistent sampleState.
Proof. apply (reachable_consistent sampleState sampleState_reachable). Defined.

Lemma handlers_keep_ids (st : AppState) id0 nowStore nowItem :
  id <$> items (handleMarkShipped id0 nowStore nowItem st) = id <$> items st /\
  id <$> items (handleUnmarkShipped id0 st) = id <$> items st /\
  id <$> items (handleExclude id0 nowStore st) = id <$> items st /\
  id <$> items (handleRestore id0 st) = id <$> items st.
Proof.
  repeat split; apply list_eq; intros i; rewrite !list_lookup_fmap;
    [rewrite handleMarkShipped_lookup | rewrite handleUnmarkShipped_lookup
    | rewrite handleExclude_lookup | rewrite handleRestore_lookup];
    destruct (items st !! i) as [r|]; simpl; try done;
    repeat case_match; done.
Qed.

(** X11. The four handlers never change the identity of a record, nor the
    number or the order of the records: identities are assigned by the
    import only. *)
Theorem handlers_preserve_identities
    (st : AppState) (id0 nowStore : string) (nowItem : nat -> string) :
  let ids (s : AppState) := id <$> items s in
  ids (handleMarkShipped id0 nowStore nowItem st) = ids st /\
  ids (handleUnmarkShipped id0 st) = ids st /\
  ids (handleExclude id0 nowStore st) = ids st /\
  ids (handleRestore id0 st) = ids st /\
  length (items (handleMarkShipped id0 nowStore nowItem st))
    = length (items st) /\
  length (items (handleUnmarkShipped id0 st)) = length (items st) /\
  length (items (handleExclude id0 nowStore st)) = length (items st) /\
  length (items (handleRestore id0 st)) = length (items st).
Proof.
  intros ids. subst ids. cbv beta.
  destruct (handlers_keep_ids st id0 nowStore nowItem) as (H1 & H2 & H3 & H4).
  repeat split; try assumption.
  - unfold handleMarkShipped. simpl. apply length_imap.
  - unfold handleUnmarkShipped. simpl. apply length_fmap.
  - unfold handleExclude. simpl. apply length_fmap.
  - unfold handleRestore. simpl. apply length_fmap.
Qed.

Lemma import_ids_distinct h ls clk rows :
  NoDup (id <$> processExcelData h ls clk rows).
Proof.
  unfold processExcelData.
  refine (proj1 (NoDup_ids_by_ordinal _ 0 rows _)).
  intros i row item Hi. simpl. eapply processRow_id. exact Hi.
Qed.

(** X12. In every state of the application the identities of the records
    are pairwise distinct, so a handler called with an identity rewrites at
    most one record. *)
Theorem reachable_ids_distinct (st : AppState) :
  reachable st ->
  NoDup (id <$> items st) /\
  (forall (i j : nat) a b,
     items st !! i = Some a -> items st !! j = Some b -> id a = id b ->
     i = j).
Proof.
  intros Hr.
  assert (NoDup (id <$> items st)) as Hnd.
  { induction Hr as [h ls clk rows|st id0 t1 t2 _ IH|st id0 _ IH
                    |st id0 t1 _ IH|st id0 _ IH].
    - apply import_ids_distinct.
    - by rewrite (proj1 (handlers_keep_ids st id0 t1 t2)).
    - by rewrite (proj1 (proj2 (handlers_keep_ids st id0 "" (fun _ => "")))).
    - by rewrite (proj1 (proj2 (proj2
                    (handlers_keep_ids st id0 t1 (fun _ => ""))))).
    - by rewrite (proj2 (proj2 (proj2
                    (handlers_keep_ids st id0 "" (fun _ => ""))))). }
  split; [exact Hnd|].
  intros i j a b Hi Hj Hab.
  eapply (NoDup_lookup (id <$> items st) i j (id a)); [exact Hnd|..].
  - by rewrite list_lookup_fmap, Hi.
  - rewrite list_lookup_fmap, Hj. simpl. by rewrite Hab.
Qed.

Lemma reachable_ids_distinct_witness :
  id <$> items sampleState = ["4500-77-0"; "NAT-77-1"] /\
  NoDup (id <$> items sampleState).
Proof.
  split; [vm_compute; reflexivity|].
  apply (reachable_ids_distinct sampleState sampleState_reachable).
Defined.

(** ** How the handlers act and compose *)

(** X13. A handler called with an identity leaves every record with a
    different identity as it is; marking and unmarking never touch the
    excluded store, excluding and restoring never touch the shipped store. *)
Theorem handlers_frame
    (st : AppState) (id0 nowStore : string) (nowItem : nat -> string)
    (i : nat) (r : ImportItem) :
  items st !! i = Some r -> id r <> id0 ->
  (items (handleMarkShipped id0 nowStore nowItem st) !! i = Some r /\
   items (handleUnmarkShipped id0 st) !! i = Some r /\
   items (handleExclude id0 nowStore st) !! i = Some r /\
   items (handleRestore id0 st) !! i = Some r) /\
  (importflow_excluded_items
     (localStorage (handleMarkShipped id0 nowStore nowItem st))
     = importflow_excluded_items (localStorage st) /\
   importflow_excluded_items (localStorage (handleUnmarkShipped id0 st))
     = importflow_excluded_items (localStorage st) /\
   importflow_shipped_items (localStorage (handleExclude id0 nowStore st))
     = importflow_shipped_items (localStorage st) /\
   importflow_shipped_items (localStorage (handleRestore id0 st))
     = importflow_shipped_items (localStorage st)).
Proof.
  intros Hi Hid. split.
  - rewrite handleMarkShipped_lookup, handleUnmarkShipped_lookup,
      handleExclude_lookup, handleRestore_lookup, Hi. simpl.
    rewrite (bool_decide_eq_false_2 _ Hid). done.
  - unfold handleMarkShipped, handleUnmarkShipped, handleExclude,
      handleRestore, removeShippedItem, removeExcludedItem. simpl.
    repeat split; by case_match.
Qed.

Lemma handlers_frame_witness :
  items (handleMarkShipped "4500-77-0" "t3" (fun _ => "t4") sampleState)
    !! 1%nat
  = items sampleState !! 1%nat.
Proof.
  destruct (items sampleState !! 1%nat) as [r|] eqn:Hr;
    [|vm_compute in Hr; discriminate Hr].
  apply (handlers_frame sampleState "4500-77-0" "t3" (fun _ => "t4") 1 r Hr).
  vm_compute in Hr. injection Hr as <-. discriminate.
Defined.

(** X14. [handleUnmarkShipped] leaves every record that is not EMBARCADO as
    it is; after it no record with the identity is EMBARCADO and the shipped
    store has no entry for the identity. *)
Theorem handleUnmarkShipped_effect (st : AppState) (id0 : string) :
  (forall (i : nat) r, items st !! i = Some r -> status r <> EMBARCADO ->
     items (handleUnmarkShipped id0 st) !! i = Some r) /\
  (forall r', r' ∈ items (handleUnmarkShipped id0 st) -> id r' = id0 ->
     status r' <> EMBARCADO) /\
  loadShippedMap (localStorage (handleUnmarkShipped id0 st)) !! id0 = None.
Proof.
  split; [|split].
  - intros i r Hi He. rewrite handleUnmarkShipped_lookup, Hi. simpl.
    rewrite (bool_decide_eq_false_2 _ He). by rewrite andb_false_r.
  - intros r' Hin Hid. apply list_elem_of_lookup in Hin as [i Hi].
    rewrite handleUnmarkShipped_lookup in Hi.
    destruct (items st !! i) as [r|]; [|discriminate Hi].
    injection Hi as <-. revert Hid.
    destruct (decide (status r = EMBARCADO)) as [He|He].
    + rewrite (bool_decide_eq_true_2 _ He), andb_true_r.
      destruct (decide (id r = id0)) as [Hr|Hr].
      * rewrite (bool_decide_eq_true_2 _ Hr). intros _. simpl.
        apply calculateStatus_computed.
      * rewrite (bool_decide_eq_false_2 _ Hr). done.
    + rewrite (bool_decide_eq_false_2 _ He), andb_false_r. done.
  - change (loadShippedMap (localStorage (handleUnmarkShipped id0 st)))
      with (loadShippedMap (removeShippedItem id0 (localStorage st))).
    rewrite loadShippedMap_remove. apply lookup_delete_eq.
Qed.

Lemma handleUnmarkShipped_effect_witness :
  items (handleUnmarkShipped "NAT-77-1" sampleState) !! 1%nat
  = items sampleState !! 1%nat.
Proof.
  destruct (items sampleState !! 1%nat) as [r|] eqn:Hr;
    [|vm_compute in Hr; discriminate Hr].
  apply (handleUnmarkShipped_effect sampleState "NAT-77-1"); [exact Hr|].
  vm_compute in Hr. injection Hr as <-. discriminate.
Defined.

Lemma AppState_eq (s1 s2 : AppState) :
  items s1 = items s2 -> localStorage s1 = localStorage s2 -> s1 = s2.
Proof. destruct s1, s2. simpl. by intros -> ->. Qed.

(** X15. Calling a handler twice with the same identity is calling it once
    with the later time stamps: the second mark or exclusion overwrites the
    time stamps of the first and changes nothing else, and a second unmark
    or restore changes nothing. *)
Theorem handlers_absorb
    (st : AppState) (id0 now1 now2 : string) (item1 item2 : nat -> string) :
  handleMarkShipped id0 now2 item2 (handleMarkShipped id0 now1 item1 st)
    = handleMarkShipped id0 now2 item2 st /\
  handleExclude id0 now2 (handleExclude id0 now1 st)
    = handleExclude id0 now2 st /\
  handleUnmarkShipped id0 (handleUnmarkShipped id0 st)
    = handleUnmarkShipped id0 st /\
  handleRestore id0 (handleRestore id0 st) = handleRestore id0 st.
Proof.
  repeat split; apply AppState_eq.
  - apply list_eq. intros i. rewrite !handleMarkShipped_lookup.
    destruct (items st !! i) as [r|]; [|done]. simpl. f_equal.
    destruct (bool_decide (id r = id0)) eqn:E1; simpl; [|by rewrite E1].
    destruct (bool_decide (status r = NACIONAL)) eqn:E2; simpl.
    + by rewrite E1, E2.
    + by rewrite E1.
  - unfold handleMarkShipped, saveShippedItem, loadShippedMap. simpl.
    by rewrite insert_insert_eq.
  - apply list_eq. intros i. rewrite !handleExclude_lookup.
    destruct (items st !! i) as [r|]; [|done]. simpl. f_equal.
    destruct (bool_decide (id r = id0)) eqn:E1; simpl; by rewrite E1.
  - unfold handleExclude, saveExcludedItem, loadExcludedMap. simpl.
    by rewrite insert_insert_eq.
  - apply list_eq. intros i. rewrite !handleUnmarkShipped_lookup.
    destruct (items st !! i) as [r|]; [|done]. simpl. f_equal.
    destruct (bool_decide (id r = id0)) eqn:E1; simpl; [|by rewrite E1].
    destruct (bool_decide (status r = EMBARCADO)) eqn:E2; simpl.
    + rewrite E1. simpl.
      rewrite bool_decide_eq_false_2; [done|].
      apply calculateStatus_computed.
    + by rewrite E1, E2.
  - unfold handleUnmarkShipped. cbn [localStorage].
    apply removeShippedItem_absent. rewrite loadShippedMap_remove.
    apply lookup_delete_eq.
  - apply list_eq. intros i. rewrite !handleRestore_lookup.
    destruct (items st !! i) as [r|]; [|done]. simpl. f_equal.
    destruct (bool_decide (id r = id0)) eqn:E1; simpl; by rewrite E1.
  - unfold handleRestore. cbn [localStorage].
    apply removeExcludedItem_absent. rewrite loadExcludedMap_remove.
    apply lookup_delete_eq.
Qed.

Lemma activeItems_fmap_exclude (id0 : string) (l : list ImportItem) :
  activeItems
    ((fun item => if bool_decide (id item = id0)
                  then with_isExcluded true item else item) <$> l)
  = List.filter (fun r => negb (bool_decide (id r = id0))) (activeItems l).
Proof.
  unfold activeItems. induction l as [|r l IH]; [done|].
  rewrite fmap_cons. cbn [List.filter].
  destruct (bool_decide (id r = id0)) eqn:E; simpl.
  - rewrite IH. destruct (isExcluded r); simpl; [done|]. by rewrite E.
  - rewrite IH. destruct (isExcluded r); simpl; [done|]. by rewrite E.
Qed.

Lemma excludedItems_fmap_restore (id0 : string) (l : list ImportItem) :
  excludedItems
    ((fun item => if bool_decide (id item = id0)
                  then with_isExcluded false item else item) <$> l)
  = List.filter (fun r => negb (bool_decide (id r = id0))) (excludedItems l).
Proof.
  unfold excludedItems. induction l as [|r l IH]; [done|].
  rewrite fmap_cons. cbn [List.filter].
  destruct (bool_decide (id r = id0)) eqn:E; simpl.
  - rewrite IH. destruct (isExcluded r); simpl; [|done]. by rewrite E.
  - rewrite IH. destruct (isExcluded r); simpl; [|done]. by rewrite E.
Qed.

(** X16. Excluding an identity removes exactly the records with that
    identity from the active records, which feed the statistics and the
    status views; restoring it removes exactly those records from the
    excluded view. After an exclusion every record with the identity is
    excluded, after a restore none is. *)
Theorem exclude_restore_views (st : AppState) (id0 nowStore : string) :
  activeItems (items (handleExclude id0 nowStore st))
    = List.filter (fun r => negb (bool_decide (id r = id0)))
        (activeItems (items st)) /\
  excludedItems (items (handleRestore id0 st))
    = List.filter (fun r => negb (bool_decide (id r = id0)))
        (excludedItems (items st)) /\
  (forall r, r ∈ items (handleExclude id0 nowStore st) -> id r = id0 ->
     isExcluded r = true) /\
  (forall r, r ∈ items (handleRestore id0 st) -> id r = id0 ->
     isExcluded r = false).
Proof.
  split; [apply activeItems_fmap_exclude|].
  split; [apply excludedItems_fmap_restore|].
  split; intros r' Hin Hid; apply list_elem_of_lookup in Hin as [i Hi];
    [rewrite handleExclude_lookup in Hi | rewrite handleRestore_lookup in Hi];
    destruct (items st !! i) as [r|]; try discriminate Hi;
    injection Hi as <-; revert Hid;
    (destruct (decide (id r = id0)) as [Hr|Hr];
     [rewrite (bool_decide_eq_true_2 _ Hr); done
     |rewrite (bool_decide_eq_false_2 _ Hr); done]).
Qed.

Lemma exclude_restore_views_witness :
  isExcluded <$> items sampleState = [false; true] /\
  isExcluded <$> items (handleRestore "NAT-77-1" sampleState) !! 1%nat
  = Some false.
Proof.
  split; [vm_compute; reflexivity|].
  destruct (items (handleRestore "NAT-77-1" sampleState) !! 1%nat)
    as [r|] eqn:E; [|vm_compute in E; discriminate E].
  pose proof (list_elem_of_lookup_2 _ _ _ E) as Hin.
  assert (id r = "NAT-77-1") as Hid
    by (clear Hin; vm_compute in E; injection E as <-; reflexivity).
  simpl. f_equal.
  exact (proj2 (proj2 (proj2 (exclude_restore_views sampleState "NAT-77-1" "")))
           r Hin Hid).
Defined.

(** X17. The overrides outlive the collection. After [handleMarkShipped] on
    an identity, every later import builds the records with that identity
    that are not national as EMBARCADO, with the stored time stamp as
    shipping date; after [handleUnmarkShipped] it builds none of them as
    EMBARCADO and gives them no shipping date; after [handleRestore] it
    builds them not excluded. *)
Theorem overrides_survive_import
    (st : AppState) (id0 nowStore : string) (nowItem : nat -> string)
    (h : Host) (clk : ImportClock) (jsonData : list (gmap string Cell))
    (item : ImportItem) :
  id item = id0 ->
  (item ∈ processExcelData h
            (localStorage (handleMarkShipped id0 nowStore nowItem st))
            clk jsonData ->
   status item <> NACIONAL ->
   status item = EMBARCADO /\ DATA_CHECK_EMBARQUE item = Some nowStore) /\
  (item ∈ processExcelData h (localStorage (handleUnmarkShipped id0 st))
            clk jsonData ->
   status item <> EMBARCADO /\ DATA_CHECK_EMBARQUE item = None) /\
  (item ∈ processExcelData h (localStorage (handleRestore id0 st))
            clk jsonData ->
   isExcluded item = false).
Proof.
  intros Hid. split; [|split]; intros Hin;
    apply elem_of_processExcelData in Hin as (idx & row & _ & Hp).
  - intros Hn.
    destruct (processRow_status _ _ _ _ _ _ _ _ Hp) as (Hst & _ & Hdt).
    revert Hst Hdt Hn.
    change (loadShippedMap (localStorage (handleMarkShipped id0 nowStore nowItem st)))
      with (<[id0 := mkStoredRecord nowStore]> (loadShippedMap (localStorage st))).
    rewrite Hid, lookup_insert_eq. simpl.
    destruct (rowIsNational h row); intros -> ->; done.
  - destruct (processRow_status _ _ _ _ _ _ _ _ Hp) as (Hst & _ & Hdt).
    revert Hst Hdt.
    change (loadShippedMap (localStorage (handleUnmarkShipped id0 st)))
      with (loadShippedMap (removeShippedItem id0 (localStorage st))).
    rewrite loadShippedMap_remove, Hid, lookup_delete_eq. simpl.
    pose proof (calculateStatus_computed (DIAS_PARA_NECESS item)) as [Hne _].
    destruct (rowIsNational h row); intros -> ->; done.
  - pose proof (processRow_isExcluded _ _ _ _ _ _ _ _ Hp) as Hex.
    revert Hex.
    change (loadExcludedMap (localStorage (handleRestore id0 st)))
      with (loadExcludedMap (removeExcludedItem id0 (localStorage st))).
    rewrite loadExcludedMap_remove, Hid, lookup_delete_eq. intros ->.
    apply bool_decide_eq_false_2. by intros [? ?].
Qed.

Lemma overrides_survive_import_witness :
  (fun r => (status r, DATA_CHECK_EMBARQUE r)) <$>
    processExcelData sampleHost (localStorage sampleState) sampleClock
      sampleRows !! 0%nat
  = Some (EMBARCADO, Some "t0").
Proof.
  destruct (processExcelData sampleHost (localStorage sampleState) sampleClock
              sampleRows !! 0%nat) as [item|] eqn:E;
    [|vm_compute in E; discriminate E].
  pose proof (list_elem_of_lookup_2 _ _ _ E) as Hin.
  assert (id item = "4500-77-0") as Hid
    by (clear Hin; vm_compute in E; injection E as <-; reflexivity).
  assert (status item <> NACIONAL) as Hn
    by (clear Hin; vm_compute in E; injection E as <-; discriminate).
  assert (localStorage sampleState
          = localStorage
              (handleMarkShipped "4500-77-0" "t0" (fun _ => "t1")
                 (handleExclude "NAT-77-1" "t2"
                    {| items := []; localStorage := emptyStorage |}))) as Hls
    by reflexivity.
  rewrite Hls in Hin.
  destruct (proj1 (overrides_survive_import
                     (handleExclude "NAT-77-1" "t2"
                        {| items := []; localStorage := emptyStorage |})
                     "4500-77-0" "t0" (fun _ => "t1")
                     sampleHost sampleClock sampleRows item Hid) Hin Hn)
    as [Hs Hd].
  simpl. by rewrite Hs, Hd.
Defined.

(** ** Statistics, views and sidebar counts *)

Lemma count_where_ext (p q : ImportItem -> bool) (l : list ImportItem) :
  (forall x, p x = q x) -> count_where p l = count_where q l.
Proof.
  intros H. unfold count_where. by rewrite (List.filter_ext p q H).
Qed.

Lemma count_where_length (l : list ImportItem) :
  count_where (fun _ => true) l = Z.of_nat (length l).
Proof.
  unfold count_where. f_equal. f_equal.
  induction l as [|x l IH]; simpl; [done|]. by rewrite IH.
Qed.

Lemma count_where_split (p q : ImportItem -> bool) (l : list ImportItem) :
  count_where p l
  = count_where (fun x => p x && q x) l
    + count_where (fun x => p x && negb (q x)) l.
Proof.
  induction l as [|x l IH].
  - by rewrite !count_where_nil.
  - rewrite !count_where_cons, IH. destruct (p x), (q x); simpl; lia.
Qed.

Lemma stats_fields (its : list ImportItem) :
  let act := activeItems its in
  totalImported (stats its) = count_where is_imported act /\
  totalNational (stats its) = count_where (has_status NACIONAL) act /\
  atrasado (stats its) = count_where (has_status ATRASADO) act /\
  critico (stats its) = count_where (has_status CRITICO) act /\
  alerta (stats its) = count_where (has_status ALERTA) act /\
  producao (stats its) = count_where (has_status PRODUCAO) act /\
  embarcado (stats its) = count_where (has_status EMBARCADO) act.
Proof.
  intros act. unfold stats. fold act. rewrite stats_fold. simpl.
  repeat split; try reflexivity;
    apply count_where_ext; intros x; unfold is_imported, has_status;
    destruct (status x); reflexivity.
Qed.

Lemma count_status_partition (l : list ImportItem) :
  count_where (has_status ATRASADO) l + count_where (has_status CRITICO) l
  + count_where (has_status ALERTA) l + count_where (has_status PRODUCAO) l
  + count_where (has_status EMBARCADO) l + count_where (has_status NACIONAL) l
  = Z.of_nat (length l) /\
  count_where is_imported l + count_where (has_status NACIONAL) l
  = Z.of_nat (length l).
Proof.
  induction l as [|x l [IH1 IH2]].
  - by rewrite !count_where_nil.
  - rewrite !count_where_cons. unfold is_imported, has_status in *.
    rewrite length_cons, Nat2Z.inj_succ.
    destruct (status x); simpl; lia.
Qed.

(** X18. The counters partition the records. The five status counters add
    up to the count of imported records; imported and national counts add up
    to the number of active records; active and excluded records add up to
    the whole collection. *)
Theorem stats_partition (its : list ImportItem) :
  atrasado (stats its) + critico (stats its) + alerta (stats its)
  + producao (stats its) + embarcado (stats its)
  = totalImported (stats its) /\
  totalImported (stats its) + totalNational (stats its)
  = Z.of_nat (length (activeItems its)) /\
  (length (activeItems its) + length (excludedItems its))%nat = length its /\
  0 <= followUpNeeded (stats its) <= totalImported (stats its).
Proof.
  destruct (stats_fields its) as (H1 & H2 & H3 & H4 & H5 & H6 & H7).
  destruct (count_status_partition (activeItems its)) as [P1 P2].
  assert (followUpNeeded (stats its) = critico (stats its) + alerta (stats its))
    as Hf.
  { rewrite H4, H5. unfold stats. rewrite stats_fold. simpl.
    f_equal; apply count_where_ext; intros x; unfold is_imported, has_status;
      destruct (status x); reflexivity. }
  assert (forall p l, 0 <= count_where p l) as Hpos
    by (intros; unfold count_where; lia).
  pose proof (Hpos (has_status ATRASADO) (activeItems its)).
  pose proof (Hpos (has_status CRITICO) (activeItems its)).
  pose proof (Hpos (has_status ALERTA) (activeItems its)).
  pose proof (Hpos (has_status PRODUCAO) (activeItems its)).
  pose proof (Hpos (has_status EMBARCADO) (activeItems its)).
  split; [lia|]. split; [lia|]. split; [|lia].
  unfold activeItems, excludedItems.
  rewrite Nat.add_comm. apply (List.filter_length (fun i => isExcluded i)).
Qed.

Lemma sidebarCounts_lookup (its : list ImportItem) :
  (forall s, sidebarCounts its !! ImportStatus_value s
             = Some (count_where (has_status s) (activeItems its))) /\
  sidebarCounts its !! "totalImported"
    = Some (count_where is_imported (activeItems its)) /\
  sidebarCounts its !! "totalNational"
    = Some (count_where (has_status NACIONAL) (activeItems its)) /\
  sidebarCounts its !! "totalExcluded"
    = Some (Z.of_nat (length (excludedItems its))).
Proof.
  destruct (stats_fields its) as (H1 & H2 & H3 & H4 & H5 & H6 & H7).
  unfold sidebarCounts. rewrite H1, H2, H3, H4, H5, H6, H7.
  split; [intros []; simpl|];
    repeat first [ rewrite lookup_insert_eq; reflexivity
                 | rewrite lookup_insert_ne by discriminate ];
    repeat split;
    repeat first [ rewrite lookup_insert_eq; reflexivity
                 | rewrite lookup_insert_ne by discriminate ].
Qed.

(** X19. The sidebar renders a number beside a menu entry exactly when the
    view of that entry displays at least one record, and the number is the
    number of records displayed: the active records for the complete list,
    the active records with the status for a status entry, the excluded
    records for the trash. The dashboard entry never has a number, and an
    entry whose view is empty has none. *)
Theorem sidebar_counts_match_views (its : list ImportItem) :
  let shown (v : ViewState) : option Z :=
    let n := Z.of_nat (length (displayedItems v its)) in
    if 0 <? n then Some n else None in
  menuBadge (sidebarCounts its) (ViewState_value HOME) = None /\
  menuBadge (sidebarCounts its) (ViewState_value ALL) = shown ALL /\
  (forall s, menuBadge (sidebarCounts its) (ViewState_value (StatusView s))
             = shown (StatusView s)) /\
  trashBadge (sidebarCounts its) = shown EXCLUIDOS.
Proof.
  intros shown. subst shown. cbv beta zeta.
  destruct (sidebarCounts_lookup its) as (Hs & Hi & Hn & He).
  destruct (count_status_partition (activeItems its)) as [_ P2].
  split; [reflexivity|]. split; [|split].
  - unfold menuBadge, menuCount. simpl. rewrite Hi, Hn. by rewrite P2.
  - intros s. change (ViewState_value (StatusView s)) with (ImportStatus_value s).
    unfold menuBadge.
    assert (menuCount (sidebarCounts its) (ImportStatus_value s)
            = sidebarCounts its !! ImportStatus_value s) as ->
      by (by destruct s).
    rewrite Hs. reflexivity.
  - unfold trashBadge. rewrite He. reflexivity.
Qed.

(** ** The table: filters *)

Lemma passesFilters_clear th h (r : ImportItem) :
  passesFilters th h clearFilters r = true.
Proof. reflexivity. Qed.

Lemma List_filter_true {A : Type} (p : A -> bool) (l : list A) :
  (forall x, p x = true) -> List.filter p l = l.
Proof.
  intros H. induction l as [|x l IH]; simpl; [done|]. by rewrite H, IH.
Qed.

Lemma elem_of_processedItems th h f its (r : ImportItem) :
  r ∈ processedItems th h f its <-> r ∈ its /\ passesFilters th h f r = true.
Proof.
  unfold processedItems, sortByUrgency.
  rewrite (Array_sort_Permutation compareItems
             (List.filter (passesFilters th h f) its)).
  rewrite list_elem_of_In, List.filter_In, <- list_elem_of_In. done.
Qed.

(** X20. With the search box and all the filters empty the table shows
    every record it is given, sorted; with any filters it shows only records
    it was given, each one once for each time it was given, and only those
    that pass the filters. *)
Theorem processedItems_subset
    (th : TableHost) (h : Host) (f : FilterState) (its : list ImportItem) :
  processedItems th h clearFilters its = sortByUrgency its /\
  processedItems th h f its ≡ₚ List.filter (passesFilters th h f) its /\
  (forall r, r ∈ processedItems th h f its <->
             r ∈ its /\ passesFilters th h f r = true) /\
  (length (processedItems th h f its) <= length its)%nat.
Proof.
  split; [|split; [|split]].
  - unfold processedItems. f_equal. apply List_filter_true.
    apply passesFilters_clear.
  - apply Array_sort_Permutation.
  - intros r. apply elem_of_processedItems.
  - unfold processedItems, sortByUrgency.
    rewrite (Permutation_length
               (Array_sort_Permutation compareItems
                  (List.filter (passesFilters th h f) its))).
    apply List.filter_length_le.
Qed.

Lemma nonEmpty_true (s : string) : s <> "" -> nonEmpty s = true.
Proof.
  intros H. unfold nonEmpty. by destruct (String.eqb_spec s "").
Qed.

Lemma passesFilters_inv th h f (r : ImportItem) :
  passesFilters th h f r = true ->
  nonEmpty (supplierFilter f)
    && differs_from_string (RAZAO_FORNEC r) (supplierFilter f) = false /\
  nonEmpty (statusFilter f)
    && negb (String.eqb (ImportStatus_value (status r)) (statusFilter f))
    = false.
Proof.
  unfold passesFilters. intros H.
  repeat match type of H with
         | (if ?c then false else _) = true =>
             destruct c eqn:?; [discriminate H|]
         end.
  by split.
Qed.

(** X21. When the status filter is set, every record shown has that status;
    when the supplier filter is set, every record shown has exactly that
    supplier name. Filtering the complete list by a status alone shows the
    rows of the view of that status. *)
Theorem processedItems_exact_filters
    (th : TableHost) (h : Host) (f : FilterState) (its : list ImportItem) :
  (forall r, r ∈ processedItems th h f its ->
     (statusFilter f <> "" -> ImportStatus_value (status r) = statusFilter f) /\
     (supplierFilter f <> "" -> RAZAO_FORNEC r = CString (supplierFilter f))) /\
  (forall s,
     processedItems th h
       {| searchTerm := ""; supplierFilter := ""; productFilter := "";
          startDate := ""; endDate := "";
          statusFilter := ImportStatus_value s |}
       (displayedItems ALL its)
     = processedItems th h clearFilters (displayedItems (StatusView s) its)).
Proof.
  split.
  - intros r Hin. apply elem_of_processedItems in Hin as [_ Hp].
    apply passesFilters_inv in Hp as (Hsup & Hst).
    split; intros Hne.
    + rewrite (nonEmpty_true _ Hne) in Hst. simpl in Hst.
      apply negb_false_iff, String.eqb_eq in Hst. exact Hst.
    + rewrite (nonEmpty_true _ Hne) in Hsup. simpl in Hsup.
      unfold differs_from_string in Hsup.
      destruct (RAZAO_FORNEC r); try discriminate Hsup.
      apply negb_false_iff, String.eqb_eq in Hsup. by rewrite Hsup.
  - intros s. unfold processedItems. f_equal.
    rewrite (List_filter_true (passesFilters th h clearFilters))
      by apply passesFilters_clear.
    unfold displayedItems. apply List.filter_ext. intros r.
    unfold passesFilters. simpl.
    destruct s, (status r); reflexivity.
Qed.

Lemma processedItems_exact_filters_witness :
  let f := {| searchTerm := ""; supplierFilter := ""; productFilter := "";
              startDate := ""; endDate := ""; statusFilter := "EMBARCADO" |} in
  status <$> processedItems (mkTableHost (fun s => s) (fun _ => InvalidDate))
               sampleHost f (items sampleState) !! 0%nat
  = Some EMBARCADO.
Proof.
  intros f.
  destruct (processedItems (mkTableHost (fun s => s) (fun _ => InvalidDate))
              sampleHost f (items sampleState) !! 0%nat) as [r|] eqn:E;
    [|vm_compute in E; discriminate E].
  pose proof (list_elem_of_lookup_2 _ _ _ E) as Hin.
  apply (processedItems_exact_filters _ _ f (items sampleState)) in Hin
    as [Hst _].
  specialize (Hst ltac:(discriminate)).
  simpl. f_equal. destruct (status r); try discriminate Hst. reflexivity.
Defined.

(** X22. The need-date range is inclusive at the granularity of local days.
    Where local time is at a fixed offset from UTC, with only the two dates
    set and both parsed as valid dates, a record with a valid contract
    need-date is shown exactly when the local day of that date is neither
    before the local day of the start date nor after the local day of the
    end date; a date that does not parse filters nothing, in any time
    zone. *)
Theorem date_range_inclusive
    (th : TableHost) (h : Host) (sd ed : string) (r : ImportItem) (t : Z) :
  sd <> "" -> ed <> "" -> NECESS_PC r = ValidDate t ->
  let f := {| searchTerm := ""; supplierFilter := ""; productFilter := "";
              startDate := sd; endDate := ed; statusFilter := "" |} in
  (forall c a b,
     fixed_offset h c ->
     parseISO th sd = ValidDate a -> parseISO th ed = ValidDate b ->
     (passesFilters th h f r = true <->
      (a + c) / MS_PER_DAY <= (t + c) / MS_PER_DAY <= (b + c) / MS_PER_DAY)) /\
  (parseISO th sd = InvalidDate -> parseISO th ed = InvalidDate ->
   passesFilters th h f r = true).
Proof.
  intros Hsd Hed Ht f. unfold passesFilters. simpl.
  rewrite (nonEmpty_true _ Hsd), (nonEmpty_true _ Hed), Ht. simpl. split.
  - intros c a b Hc Ha Hb.
    rewrite Ha, Hb, (startOfDay_fixed h c), (endOfDay_fixed h c) by done.
    simpl. unfold MS_PER_DAY.
    pose proof (Z.div_mod (a + c) 86400000 ltac:(lia)) as Ha1.
    pose proof (Z.mod_pos_bound (a + c) 86400000 ltac:(lia)) as Ha2.
    pose proof (Z.div_mod (b + c) 86400000 ltac:(lia)) as Hb1.
    pose proof (Z.mod_pos_bound (b + c) 86400000 ltac:(lia)) as Hb2.
    pose proof (Z.div_mod (t + c) 86400000 ltac:(lia)) as Ht1.
    pose proof (Z.mod_pos_bound (t + c) 86400000 ltac:(lia)) as Ht2.
    repeat match goal with
           | |- context [?x <? ?y] => destruct (Z.ltb_spec x y)
           end;
      simpl; split; try discriminate; try (intros _; lia);
      intros; exfalso; lia.
  - intros -> ->. reflexivity.
Qed.

Lemma date_range_inclusive_witness :
  let th := mkTableHost (fun s => s)
              (fun s => if String.eqb s "1970-01-02" then ValidDate 97200000
                        else if String.eqb s "1970-01-03"
                             then ValidDate 183600000 else InvalidDate) in
  let f := {| searchTerm := ""; supplierFilter := ""; productFilter := "";
              startDate := "1970-01-02"; endDate := "1970-01-03";
              statusFilter := "" |} in
  let r t := {| id := "4500-77-0"; NUMERO_SC := CUndefined;
                NUMERO_PO := CNumber 4500; NUMERO_PC := CString "77";
                NECESS_SC := None; NECESS_PC := ValidDate t;
                RAZAO_FORNEC := CString "-"; DESCR_PROD := CString "-";
                VOLUME_PC := CString "-"; DIAS_PARA_NECESS := 1;
                status := CRITICO; DATA_CHECK_EMBARQUE := None;
                isExcluded := false |} in
  passesFilters th hostSaoPaulo f (r 269999999) = true /\
  passesFilters th hostSaoPaulo f (r 270000000) <> true.
Proof.
  intros th f r. split.
  - apply (proj1 (date_range_inclusive th hostSaoPaulo
                    "1970-01-02" "1970-01-03" (r 269999999) 269999999
                    ltac:(discriminate) ltac:(discriminate) eq_refl)
             (-10800000) 97200000 183600000
             ltac:(intros ? ?; reflexivity) eq_refl eq_refl).
    vm_compute. split; discriminate.
  - intros Hp.
    apply (proj1 (date_range_inclusive th hostSaoPaulo
                    "1970-01-02" "1970-01-03" (r 270000000) 270000000
                    ltac:(discriminate) ltac:(discriminate) eq_refl)
             (-10800000) 97200000 183600000
             ltac:(intros ? ?; reflexivity) eq_refl eq_refl) in Hp.
    vm_compute in Hp. destruct Hp as [_ Hp]. by apply Hp.
Defined.

(** ** The table: statistics, status list, colours *)

Lemma tableStats_fold (l : list ImportItem) (acc : TableStats.t) :
  fold_left tableStats_reducer l acc =
  {| TableStats.total := TableStats.total acc + Z.of_nat (length l);
     TableStats.atrasado :=
       TableStats.atrasado acc + count_where (has_status ATRASADO) l;
     TableStats.critico :=
       TableStats.critico acc + count_where (has_status CRITICO) l;
     TableStats.alerta :=
       TableStats.alerta acc + count_where (has_status ALERTA) l;
     TableStats.producao :=
       TableStats.producao acc + count_where (has_status PRODUCAO) l;
     TableStats.embarcado :=
       TableStats.embarcado acc + count_where (has_status EMBARCADO) l |}.
Proof.
  revert acc. induction l as [|x l IH]; intros acc.
  - rewrite !count_where_nil. destruct acc; simpl. f_equal; lia.
  - simpl fold_left. rewrite IH, !count_where_cons.
    rewrite length_cons, Nat2Z.inj_succ.
    unfold tableStats_reducer, bump, has_status.
    destruct (status x); simpl; f_equal; lia.
Qed.

(** X23. The summary bar of the table counts the rows shown: [total] is
    their number and each status counter the number of rows with that
    status; the rows that the five counters leave out are the NACIONAL ones,
    which, unlike in the dashboard statistics, are part of [total]. *)
Theorem tableStats_counts (processed : list ImportItem) :
  let ts := tableStats processed in
  TableStats.total ts = Z.of_nat (length processed) /\
  TableStats.atrasado ts = count_where (has_status ATRASADO) processed /\
  TableStats.critico ts = count_where (has_status CRITICO) processed /\
  TableStats.alerta ts = count_where (has_status ALERTA) processed /\
  TableStats.producao ts = count_where (has_status PRODUCAO) processed /\
  TableStats.embarcado ts = count_where (has_status EMBARCADO) processed /\
  TableStats.total ts
  = TableStats.atrasado ts + TableStats.critico ts + TableStats.alerta ts
    + TableStats.producao ts + TableStats.embarcado ts
    + count_where (has_status NACIONAL) processed.
Proof.
  intros ts. subst ts. unfold tableStats. rewrite tableStats_fold. simpl.
  destruct (count_status_partition processed) as [P _].
  repeat split; lia.
Qed.

Lemma Set_from_spec {A : Type} `{EqDecision A} (seen l : list A) :
  NoDup (Set_from seen l) /\
  (forall x, x ∈ Set_from seen l <-> x ∈ l /\ x ∉ seen).
Proof.
  revert seen. induction l as [|y l IH]; intros seen.
  - split; [constructor|]. intros x. simpl. rewrite elem_of_nil. tauto.
  - simpl. destruct (decide (y ∈ seen)) as [Hy|Hy].
    + destruct (IH seen) as [Hnd Hin]. split; [exact Hnd|].
      intros x. rewrite Hin, elem_of_cons. split; [tauto|].
      intros [[->|Hx] Hs]; tauto.
    + destruct (IH (y :: seen)) as [Hnd Hin]. split.
      * apply NoDup_cons. split; [|exact Hnd].
        rewrite Hin. rewrite elem_of_cons. tauto.
      * intros x. rewrite !elem_of_cons, Hin, elem_of_cons.
        destruct (decide (x = y)) as [->|Hxy]; tauto.
Qed.

(** X24. The status filter offers each status that occurs among the records
    of the table, once, and no other. *)
Theorem uniqueStatuses_spec (its : list ImportItem) :
  NoDup (uniqueStatuses its) /\
  (forall s, s ∈ uniqueStatuses its <-> exists r, r ∈ its /\ status r = s).
Proof.
  unfold uniqueStatuses.
  destruct (Set_from_spec [] (map status its)) as [Hnd Hin].
  split; [exact Hnd|]. intros s. rewrite Hin.
  change (map status its) with (status <$> its).
  rewrite list_elem_of_fmap, elem_of_nil. split.
  - intros [(r & -> & Hr) _]. eauto.
  - intros (r & Hr & <-). split; [eauto|tauto].
Qed.

(** X25. The colour of the timeline bar follows the status computed from
    the same day count, red for ATRASADO, orange for CRITICO, yellow for
    ALERTA and blue for PRODUCAO, and then it is the colour of the border
    of the row, except at exactly 60 days: there the status is ALERTA and
    the bar is blue. *)
Theorem timeline_colour_follows_status (d : Z) :
  (getTimelineProps_colorClass d = "bg-red-500"
   <-> calculateStatus d = ATRASADO) /\
  (getTimelineProps_colorClass d = "bg-orange-500"
   <-> calculateStatus d = CRITICO) /\
  (getTimelineProps_colorClass d = "bg-yellow-400"
   <-> calculateStatus d = ALERTA /\ d <> 60) /\
  (getTimelineProps_colorClass d = "bg-blue-400"
   <-> calculateStatus d = PRODUCAO \/ d = 60) /\
  (d <> 60 ->
   exists colour prefix,
     getTimelineProps_colorClass d = "bg-" ++ colour /\
     getRowClass false (calculateStatus d) = prefix ++ "border-l-" ++ colour).
Proof.
  unfold getTimelineProps_colorClass, calculateStatus.
  destruct (Z.ltb_spec d 0), (Z.ltb_spec d 30), (Z.ltb_spec d 60),
    (Z.leb_spec d 60); try (exfalso; lia).
  all: repeat match goal with
         | |- _ /\ _ => split
         | |- _ <-> _ => split
         end.
  all: try discriminate; try reflexivity.
  all: try (intros [? ?]; first [discriminate | lia]).
  all: try (intros [?|?]; first [discriminate | lia]).
  all: try (intros _; first [by left | by right | split; [reflexivity|lia]]).
  - intros _. exists "red-500", "bg-white hover:bg-red-50/20 border-l-4 ".
    split; reflexivity.
  - intros _.
    exists "orange-500", "bg-white hover:bg-orange-50/20 border-l-4 ".
    split; reflexivity.
  - intros _.
    exists "yellow-400", "bg-white hover:bg-yellow-50/20 border-l-4 ".
    split; reflexivity.
  - intros _. right. lia.
  - intros Hd. exfalso. lia.
  - intros _. exists "blue-400", "bg-white hover:bg-blue-50/20 border-l-4 ".
    split; reflexivity.
Qed.

Lemma timeline_colour_follows_status_witness :
  exists colour prefix,
    getTimelineProps_colorClass 45 = "bg-" ++ colour /\
    getRowClass false (calculateStatus 45) = prefix ++ "border-l-" ++ colour.
Proof.
  apply (timeline_colour_follows_status 45). discriminate.
Defined.

Lemma StronglySorted_weaken {A : Type} (R R' : A -> A -> Prop) (P : A -> Prop)
    (l : list A) :
  (forall a b, P a -> P b -> R a b -> R' a b) ->
  Forall P l -> StronglySorted R l -> StronglySorted R' l.
Proof.
  intros HR HP Hs. induction Hs as [|x l Hs IH Hall]; [constructor|].
  inversion HP as [|? ? Hx Hl]; subst.
  constructor; [by apply IH|].
  apply Forall_forall. intros y Hy.
  apply HR; [exact Hx| |].
  - by apply (proj1 (Forall_forall _ _) Hl).
  - by apply (proj1 (Forall_forall _ _) Hall).
Qed.

Lemma StronglySorted_lookup_lt {A : Type} (R : A -> A -> Prop) (l : list A)
    (i j : nat) (a b : A) :
  StronglySorted R l -> (i < j)%nat ->
  l !! i = Some a -> l !! j = Some b -> R a b.
Proof.
  intros Hs. revert i j. induction Hs as [|x l Hs IH Hall]; intros i j Hij.
  - by rewrite lookup_nil.
  - destruct j as [|j]; [lia|]. destruct i as [|i]; simpl.
    + intros [= <-] Hb. apply (proj1 (Forall_forall _ _) Hall).
      by eapply list_elem_of_lookup_2.
    + apply IH. lia.
Qed.

Lemma StronglySorted_filter_sub {A : Type} (R : A -> A -> Prop)
    (P : A -> Prop) `{forall x, Decision (P x)} (l : list A) :
  StronglySorted R l -> StronglySorted R (filter P l).
Proof.
  induction 1 as [|x l Hs IH Hall]; [constructor|].
  destruct (decide (P x)).
  - rewrite filter_cons_True by done. constructor; [exact IH|].
    apply Forall_forall. intros y Hy.
    apply list_elem_of_filter in Hy as [_ Hy].
    by apply (proj1 (Forall_forall _ _) Hall).
  - by rewrite filter_cons_False by done.
Qed.

Lemma computed_key_le_days (a b : ImportItem) :
  status a = calculateStatus (DIAS_PARA_NECESS a) ->
  status b = calculateStatus (DIAS_PARA_NECESS b) ->
  key_le (sortKey a) (sortKey b) ->
  DIAS_PARA_NECESS a <= DIAS_PARA_NECESS b.
Proof.
  unfold key_le, sortKey. simpl. rewrite !priority_of_status.
  intros -> ->. unfold calculateStatus.
  destruct (Z.ltb_spec (DIAS_PARA_NECESS a) 0),
    (Z.ltb_spec (DIAS_PARA_NECESS a) 30),
    (Z.leb_spec (DIAS_PARA_NECESS a) 60),
    (Z.ltb_spec (DIAS_PARA_NECESS b) 0),
    (Z.ltb_spec (DIAS_PARA_NECESS b) 30),
    (Z.leb_spec (DIAS_PARA_NECESS b) 60); lia.
Qed.

Lemma shipped_national_key_le (a b : ImportItem) :
  status a = EMBARCADO \/ status a = NACIONAL ->
  key_le (sortKey a) (sortKey b) ->
  status b = EMBARCADO \/ status b = NACIONAL.
Proof.
  unfold key_le, sortKey. simpl. rewrite !priority_of_status.
  intros [-> | ->]; destruct (status b); (tauto || lia).
Qed.

(** X26. In any table, whatever other rows it holds, the records whose
    status is the one computed from their day count (so neither shipped nor
    national) are listed by days ascending: of two such records the one
    listed first has the smaller or equal day count. The shipped and the
    national rows come after all the others. *)
Theorem sortByUrgency_computed_by_days (l : list ImportItem) :
  let computed (r : ImportItem) :=
    status r = calculateStatus (DIAS_PARA_NECESS r) in
  (forall (i j : nat) a b,
     (i < j)%nat ->
     sortByUrgency l !! i = Some a -> sortByUrgency l !! j = Some b ->
     (computed a -> computed b ->
      DIAS_PARA_NECESS a <= DIAS_PARA_NECESS b) /\
     (status a = EMBARCADO \/ status a = NACIONAL ->
      status b = EMBARCADO \/ status b = NACIONAL)) /\
  StronglySorted (fun a b => DIAS_PARA_NECESS a <= DIAS_PARA_NECESS b)
    (filter computed (sortByUrgency l)).
Proof.
  intros computed.
  pose proof (sortByUrgency_StronglySorted l) as Hs. split.
  - intros i j a b Hij Hi Hj.
    pose proof (StronglySorted_lookup_lt _ _ i j a b Hs Hij Hi Hj) as Hle.
    split.
    + intros Ha Hb. by apply computed_key_le_days.
    + intros Ha. by eapply shipped_national_key_le.
  - apply (StronglySorted_weaken
             (fun a b => key_le (sortKey a) (sortKey b)) _ computed).
    + intros a b. apply computed_key_le_days.
    + apply Forall_forall. intros r Hr.
      by apply list_elem_of_filter in Hr as [Hr _].
    + by apply StronglySorted_filter_sub.
Qed.

Lemma sortByUrgency_computed_by_days_witness :
  let l := [sampleItem "a" PRODUCAO 90 false;
            sampleItem "n" NACIONAL (-8) false;
            sampleItem "b" ATRASADO (-3) false;
            sampleItem "e" EMBARCADO 2 false;
            sampleItem "c" ALERTA 60 false] in
  DIAS_PARA_NECESS <$> sortByUrgency l = [-3; 60; 90; 2; -8] /\
  DIAS_PARA_NECESS (sampleItem "b" ATRASADO (-3) false)
  <= DIAS_PARA_NECESS (sampleItem "c" ALERTA 60 false).
Proof.
  intros l. split; [vm_compute; reflexivity|].
  refine (proj1 (proj1 (sortByUrgency_computed_by_days l) 0%nat 1%nat
                   (sampleItem "b" ATRASADO (-3) false)
                   (sampleItem "c" ALERTA 60 false)
                   _ _ _) _ _);
    [lia|vm_compute; reflexivity|vm_compute; reflexivity
    |reflexivity|reflexivity].
Defined.
